(** * Transfer-learning toolkit: validation and dispatch glue

    A shallow embedding of the Python sources

    - [tlt/models/image_classification/image_classification_model.py]
      (the INC configuration builder),
    - [ai_downloader/datasets.py] (the unified dataset downloader),
    - [tlk/datasets/pytorch_dataset.py] (the PyTorch dataset wrapper),

    together with the properties stated about them.  Python values are an
    inductive type, Python floats are IEEE-754 binary64 numbers
    ([spec_float] at precision 53), exceptions are an outcome type, and
    code that mutates [self] or the file system threads an explicit
    state. *)

From Stdlib Require Import ZArith Ascii String List Bool Lia.
From Stdlib Require Import Floats.SpecFloat.
From stdpp Require Import base option gmap strings list sets.

Local Open Scope string_scope.
Local Open Scope Z_scope.

(** ** Exceptions and outcomes *)

Inductive exn : Set :=
| ValueError
| TypeError
| IndexError
| OverflowError
| StopIteration
| FileNotFoundError
| IsADirectoryError
| URLError
| ReadError
| AssertionError.

Inductive outcome (A : Type) : Type :=
| Return (a : A)
| Raise (e : exn).

Arguments Return {A} a.
Arguments Raise {A} e.

#[global] Instance outcome_ret : MRet outcome := fun A a => Return a.
#[global] Instance outcome_bind : MBind outcome :=
  fun A B k m => match m with Return a => k a | Raise e => Raise e end.
#[global] Instance outcome_fmap : FMap outcome :=
  fun A B f m => match m with Return a => Return (f a) | Raise e => Raise e end.

(** A computation over a mutable state [S]: the state after a [raise] is
    the state reached when the exception was thrown, as in Python. *)
Definition M (S A : Type) : Type := S -> outcome A * S.

Definition ret {S A} (a : A) : M S A := fun s => (Return a, s).
Definition raise {S A} (e : exn) : M S A := fun s => (Raise e, s).
Definition bind {S A B} (m : M S A) (k : A -> M S B) : M S B :=
  fun s => match m s with
           | (Return a, s') => k a s'
           | (Raise e, s') => (Raise e, s')
           end.
Definition get {S} : M S S := fun s => (Return s, s).
Definition gets {S A} (f : S -> A) : M S A := fun s => (Return (f s), s).
Definition modify {S} (f : S -> S) : M S unit := fun s => (Return tt, f s).
Definition lift {S A} (o : outcome A) : M S A := fun s => (o, s).

Declare Scope py_scope.
Delimit Scope py_scope with py.
Notation "'do' x <- m ; k" := (bind m (fun x => k))
  (at level 10, x name, m at level 100, k at level 200) : py_scope.
Notation "m ;; k" := (bind m (fun _ => k))
  (at level 100, k at level 200, right associativity) : py_scope.

(** ** Python floats: IEEE-754 binary64 *)

Module Float64.

Definition float : Set := spec_float.

Definition prec : Z := 53.
Definition emax : Z := 1024.

Definition add : float -> float -> float := SFadd prec emax.
Definition mul : float -> float -> float := SFmul prec emax.
Definition div : float -> float -> float := SFdiv prec emax.
Definition ltb : float -> float -> bool := SFltb.
Definition leb : float -> float -> bool := SFleb.
Definition eqb : float -> float -> bool := SFeqb.

(** [float(z)] for a Python int: round to nearest, ties to even. *)
Definition of_int (z : Z) : float := binary_normalize prec emax z 0 false.

(** The double nearest to the decimal literal [n / d]. *)
Definition dec (n d : Z) : float := div (of_int n) (of_int d).

Definition zero : float := S754_zero false.
Definition one : float := Eval cbv in of_int 1.
Definition nan : float := S754_nan.

Definition is_nan (f : float) : bool :=
  match f with S754_nan => true | _ => false end.

Definition is_finite (f : float) : bool :=
  match f with S754_zero _ | S754_finite _ _ _ => true | _ => false end.

(** [bool(f)]: every float except the two zeros is truthy, NaN included. *)
Definition truthy (f : float) : bool := negb (eqb f zero).

(** Exact comparison of a float with an integer, as CPython's
    [float_richcompare] does (no rounding of the integer). *)
Definition compare_Z (f : float) (z : Z) : option comparison :=
  match f with
  | S754_nan => None
  | S754_infinity s => Some (if s then Lt else Gt)
  | S754_zero _ => Some (0 ?= z)
  | S754_finite s m e =>
      let v := cond_Zopp s (Zpos m) in
      if 0 <=? e then Some (v * 2 ^ e ?= z) else Some (v ?= z * 2 ^ (- e))
  end.

(** [int(f)]: truncation toward zero; NaN and the infinities raise. *)
Definition to_int (f : float) : outcome Z :=
  match f with
  | S754_nan => Raise ValueError
  | S754_infinity _ => Raise OverflowError
  | S754_zero _ => Return 0
  | S754_finite s m e =>
      Return (cond_Zopp s (if 0 <=? e then Zpos m * 2 ^ e else Zpos m / 2 ^ (- e)))
  end.

End Float64.

Abbreviation float := Float64.float.

(** ** Python values *)

#[warnings="-register-all"]
Inductive pyval : Type :=
| VNone
| VBool (b : bool)
| VInt (z : Z)
| VFloat (f : float)
| VStr (s : string)
| VList (l : list pyval).

(** [bool(v)] *)
Definition truthy (v : pyval) : bool :=
  match v with
  | VNone => false
  | VBool b => b
  | VInt z => negb (z =? 0)
  | VFloat f => Float64.truthy f
  | VStr s => negb (String.eqb s "")
  | VList l => match l with [] => false | _ => true end
  end.

(** [isinstance(v, float)] *)
Definition isinstance_float (v : pyval) : bool :=
  match v with VFloat _ => true | _ => false end.

(** [isinstance(v, int)]: [bool] is a subclass of [int]. *)
Definition isinstance_int (v : pyval) : bool :=
  match v with VInt _ | VBool _ => true | _ => false end.

(** [isinstance(v, str)] *)
Definition isinstance_str (v : pyval) : bool :=
  match v with VStr _ => true | _ => false end.

(** [v == s] for a string literal [s] *)
Definition eq_str (v : pyval) (s : string) : bool :=
  match v with VStr x => String.eqb x s | _ => false end.

(** Numbers: the values on which ordering against a numeric literal is
    defined. *)
Inductive num : Set :=
| NInt (z : Z)
| NFloat (f : float).

Definition as_num (v : pyval) : option num :=
  match v with
  | VBool b => Some (NInt (Z.b2z b))
  | VInt z => Some (NInt z)
  | VFloat f => Some (NFloat f)
  | _ => None
  end.

Definition num_compare (a b : num) : option comparison :=
  match a, b with
  | NInt x, NInt y => Some (x ?= y)
  | NFloat x, NFloat y => SFcompare x y
  | NFloat x, NInt y => Float64.compare_Z x y
  | NInt x, NFloat y => option_map CompOpp (Float64.compare_Z y x)
  end.

Definition is_lt (c : option comparison) : bool :=
  match c with Some Lt => true | _ => false end.
Definition is_le (c : option comparison) : bool :=
  match c with Some Lt | Some Eq => true | _ => false end.

(** [v < k], [v <= k], [v >= k] and [k <= v] for a numeric literal [k]; ordering a
    number against [None], a string or a list raises [TypeError]. *)
Definition lt_num (v : pyval) (k : num) : outcome bool :=
  match as_num v with
  | Some n => Return (is_lt (num_compare n k))
  | None => Raise TypeError
  end.

Definition le_num (v : pyval) (k : num) : outcome bool :=
  match as_num v with
  | Some n => Return (is_le (num_compare n k))
  | None => Raise TypeError
  end.

Definition ge_num (v : pyval) (k : num) : outcome bool :=
  match as_num v with
  | Some n => Return (is_le (num_compare k n))
  | None => Raise TypeError
  end.

Definition num_le (k : num) (v : pyval) : outcome bool :=
  match as_num v with
  | Some n => Return (is_le (num_compare k n))
  | None => Raise TypeError
  end.

(** ** The INC configuration builder
    ([ImageClassificationModel.get_inc_config]) *)

Module Inc.

Record AccuracyCriterion := {
  tolerable_loss : pyval
}.

Record TuningCriterion := {
  timeout : pyval;
  max_trials : pyval
}.

Record PostTrainingQuantConfig := {
  approach : string;
  device : string;
  accuracy_criterion : AccuracyCriterion;
  tuning_criterion : TuningCriterion
}.

(** [0.0 <= v <= 1.0], a chained comparison: the second test is only
    evaluated when the first one holds. *)
Definition in_unit_interval (v : pyval) : outcome bool :=
  lo ← num_le (NFloat Float64.zero) v;
  if lo : bool then le_num v (NFloat Float64.one) else Return false.

(** [v and not isinstance(v, T) or c], where [c] may raise *)
Definition rejects (v : pyval) (isinstance_T : pyval -> bool) (c : outcome bool)
  : outcome bool :=
  if truthy v && negb (isinstance_T v) then Return true else c.

(** The three constructors of [neural_compressor.config] are not part of
    this repository.  Each of them either refuses its arguments with an
    exception of its own or builds the object holding them; what it
    refuses is left to the installed library. *)
Class NeuralCompressor := {
  check_AccuracyCriterion : pyval -> outcome unit;
  check_TuningCriterion : pyval -> pyval -> outcome unit;
  check_PostTrainingQuantConfig : string -> string -> outcome unit
}.

Section Constructors.

Context {N : NeuralCompressor}.

(** [AccuracyCriterion(tolerable_loss=v)] *)
Definition new_AccuracyCriterion (v : pyval) : outcome AccuracyCriterion :=
  _ ← check_AccuracyCriterion v;
  Return {| tolerable_loss := v |}.

(** [TuningCriterion(timeout=t, max_trials=m)] *)
Definition new_TuningCriterion (t m : pyval) : outcome TuningCriterion :=
  _ ← check_TuningCriterion t m;
  Return {| timeout := t; max_trials := m |}.

(** [PostTrainingQuantConfig(approach=a, device=d, accuracy_criterion=ac,
    tuning_criterion=tc)] *)
Definition new_PostTrainingQuantConfig (a d : string)
  (ac : AccuracyCriterion) (tc : TuningCriterion)
  : outcome PostTrainingQuantConfig :=
  _ ← check_PostTrainingQuantConfig a d;
  Return {| approach := a; device := d;
            accuracy_criterion := ac; tuning_criterion := tc |}.

Definition get_inc_config
  (accuracy_criterion_relative exit_policy_timeout exit_policy_max_trials : pyval)
  : outcome PostTrainingQuantConfig :=
  bad ← rejects accuracy_criterion_relative isinstance_float
          (negb <$> in_unit_interval accuracy_criterion_relative);
  if bad : bool then Raise ValueError else
  bad ← rejects exit_policy_timeout isinstance_int
          (lt_num exit_policy_timeout (NInt 0));
  if bad : bool then Raise ValueError else
  bad ← rejects exit_policy_max_trials isinstance_int
          (lt_num exit_policy_max_trials (NInt 1));
  if bad : bool then Raise ValueError else
  accuracy_criterion ← new_AccuracyCriterion accuracy_criterion_relative;
  tuning_criterion ← new_TuningCriterion exit_policy_timeout exit_policy_max_trials;
  new_PostTrainingQuantConfig "static" "cpu" accuracy_criterion tuning_criterion.

End Constructors.

(** A library that asserts the types of what it is given, as
    neural_compressor 2.0 does: [tolerable_loss] a float, [timeout] and
    [max_trials] instances of [int]; a failed assertion is an
    [AssertionError]. *)
Definition asserting : NeuralCompressor :=
  {| check_AccuracyCriterion v :=
       if isinstance_float v then Return tt else Raise AssertionError;
     check_TuningCriterion t m :=
       if isinstance_int t
       then if isinstance_int m then Return tt else Raise AssertionError
       else Raise AssertionError;
     check_PostTrainingQuantConfig _ _ := Return tt |}.

End Inc.

(** ** The unified dataset downloader ([ai_downloader/datasets.py]) *)

Module Downloader.

Local Open Scope py_scope.

(** *** Paths ([os.path] on a POSIX system) *)

Definition sep : ascii := "/"%char.

Definition startswith_sep (p : string) : bool :=
  match p with String c _ => Ascii.eqb c sep | EmptyString => false end.

Fixpoint endswith_sep (p : string) : bool :=
  match p with
  | EmptyString => false
  | String c EmptyString => Ascii.eqb c sep
  | String _ r => endswith_sep r
  end.

(** [os.path.isabs] *)
Definition isabs (p : string) : bool := startswith_sep p.

(** [os.path.join(a, b)] *)
Definition join (a b : string) : string :=
  if startswith_sep b then b
  else if String.eqb a "" || endswith_sep a then a ++ b
  else a ++ "/" ++ b.

Fixpoint basename_from (cur p : string) : string :=
  match p with
  | EmptyString => cur
  | String c r =>
      if Ascii.eqb c sep then basename_from "" r
      else basename_from (cur ++ String c "") r
  end.

(** [os.path.basename(p)]: what follows the last slash *)
Definition basename (p : string) : string := basename_from "" p.

(** [p.split('/')[0]]: what precedes the first slash *)
Fixpoint first_component (p : string) : string :=
  match p with
  | EmptyString => ""
  | String c r => if Ascii.eqb c sep then "" else String c (first_component r)
  end.

(** *** The outside world: file system, web, environment, vendor SDKs *)

(** What a regular file holds, as far as [tarfile] and [zipfile] can
    tell: an archive with its member names, or anything else. *)
Inductive FileContent : Type :=
| TarArchive (names : list string)
| ZipArchive (names : list string)
| PlainFile.

Inductive DatasetType : Set :=
| TENSORFLOW_DATASETS
| TORCHVISION
| HUGGING_FACE
| GENERIC.

#[global] Instance DatasetType_eq_dec : EqDecision DatasetType.
Proof. solve_decision. Defined.

(** The keyword a torchvision dataset class is given besides
    [download=True]: [split=...] or [train=...]. *)
Inductive SplitArg : Type :=
| BySplit (split : pyval)
| ByTrain (train : bool).

(** One call into a vendor SDK, with its arguments. *)
Inductive SdkCall : Type :=
| TfdsLoad (name data_dir : string) (split : pyval) (kwargs : gmap string pyval)
| TorchvisionDataset (class_name root : string) (download : bool) (arg : SplitArg)
| HfLoadDataset (path : string) (name : option pyval) (split : pyval)
                (cache_dir : string).

(** Which SDK a call goes to. *)
Inductive Vendor : Set := Tfds | Torchvision | HuggingFace.

Definition vendor_of (c : SdkCall) : Vendor :=
  match c with
  | TfdsLoad _ _ _ _ => Tfds
  | TorchvisionDataset _ _ _ _ => Torchvision
  | HfLoadDataset _ _ _ _ => HuggingFace
  end.

(** A dataset object handed back by an SDK, opaque to this code. *)
Definition SdkObject : Set := nat.

Record World := {
  dirs : gset string;
  files : gmap string FileContent;
  web : gmap string FileContent;
  environ : gmap string string;
  sdk_log : list SdkCall
}.

(** The code this module calls but does not define: the enumeration
    helper [DatasetType.from_str] of [ai_downloader/types.py] and the
    vendor SDKs, each of which answers a call with an object or an
    exception. *)
Class Externals := {
  from_str : option string -> outcome DatasetType;
  respond : SdkCall -> outcome SdkObject
}.

(** [os.path.isdir], [os.path.isfile], [os.makedirs] *)
Definition isdir (p : string) : M World bool :=
  gets (fun w => bool_decide (p ∈ dirs w)).

Definition isfile (p : string) : M World bool :=
  gets (fun w => match files w !! p with Some _ => true | None => false end).

Definition makedirs (p : string) : M World unit :=
  modify (fun w => {| dirs := {[p]} ∪ dirs w; files := files w; web := web w;
                      environ := environ w; sdk_log := sdk_log w |}).

Definition write_file (p : string) (c : FileContent) : M World unit :=
  modify (fun w => {| dirs := dirs w; files := <[p := c]> (files w); web := web w;
                      environ := environ w; sdk_log := sdk_log w |}).

Definition setenv (k v : string) : M World unit :=
  modify (fun w => {| dirs := dirs w; files := files w; web := web w;
                      environ := <[k := v]> (environ w); sdk_log := sdk_log w |}).

(** [urllib.request.urlopen(url)] followed by reading the response *)
Definition urlopen (url : string) : M World FileContent :=
  fun w => match web w !! url with
           | Some c => (Return c, w)
           | None => (Raise URLError, w)
           end.

(** [open(p, 'wb')] and [shutil.copyfileobj] *)
Definition store (p : string) (c : FileContent) : M World unit :=
  do d <- isdir p;
  if d : bool then raise IsADirectoryError else write_file p c.

(** A call into a vendor SDK: logged, and answered by the SDK. *)
Definition call {E : Externals} (c : SdkCall) : M World SdkObject :=
  fun w => (respond c,
            {| dirs := dirs w; files := files w; web := web w;
               environ := environ w; sdk_log := sdk_log w ++ [c] |}).

(** [try: m except TypeError: h] *)
Definition except_TypeError {S A} (m h : M S A) : M S A :=
  fun s => match m s with
           | (Raise TypeError, s') => h s'
           | r => r
           end.

(** *** The module's functions *)

Definition download_file (download_url destination_directory : string)
  : M World string :=
  do d <- isdir destination_directory;
  (if d : bool then ret tt else makedirs destination_directory);;
  let destination_file_path := join destination_directory (basename download_url) in
  do response <- urlopen download_url;
  store destination_file_path response;;
  ret destination_file_path.

(** [extractall(path=destination_directory)]: every member appears under
    the destination. *)
Definition extractall (names : list string) (destination_directory : string)
  : M World unit :=
  modify (fun w =>
    {| dirs := dirs w;
       files := foldr (fun n fs => <[join destination_directory n := PlainFile]> fs)
                      (files w) names;
       web := web w; environ := environ w; sdk_log := sdk_log w |}).

(** [list({i.split('/')[0] for i in names})] *)
Definition top_level (names : list string) : list string :=
  elements (list_to_set (first_component <$> names) : gset string).

Definition extract_tar_file (tar_file_path destination_directory : string)
  : M World (list string) :=
  do d <- isdir destination_directory;
  (if d : bool then ret tt else makedirs destination_directory);;
  do w <- get;
  match files w !! tar_file_path with
  | Some (TarArchive names) =>
      extractall names destination_directory;;
      ret (top_level names)
  | Some _ => raise ReadError
  | None => raise FileNotFoundError
  end.

Definition extract_zip_file (zip_file_path destination_directory : string)
  : M World (list string) :=
  do d <- isdir destination_directory;
  (if d : bool then ret tt else makedirs destination_directory);;
  do w <- get;
  match files w !! zip_file_path with
  | Some (ZipArchive names) =>
      extractall names destination_directory;;
      ret (top_level names)
  | Some _ => raise ReadError
  | None => raise FileNotFoundError
  end.

(** [tarfile.is_tarfile], [zipfile.is_zipfile] *)
Definition is_tarfile (p : string) : M World bool :=
  gets (fun w => match files w !! p with Some (TarArchive _) => true | _ => false end).

Definition is_zipfile (p : string) : M World bool :=
  gets (fun w => match files w !! p with Some (ZipArchive _) => true | _ => false end).

Record DataDownloader := {
  _dataset_name : string;
  _dataset_dir : string;
  _type : DatasetType;
  _url : option string;
  _args : gmap string pyval
}.


(** What [download] hands back: a dataset object of one of the SDKs, a
    path, or a list of paths. *)
Inductive Downloaded : Type :=
| Dataset (o : SdkObject)
| Path (p : string)
| Paths (ps : list string).

(** The tail of the generic branch: the top-level extracted members,
    joined to the dataset directory; a single string if there is one. *)
Definition extracted (self : DataDownloader) (contents : list string)
  : M World Downloaded :=
  if 1 <? Z.of_nat (length contents) then
    ret (Paths (join (_dataset_dir self) <$> contents))
  else
    match contents with
    | c :: _ => ret (Path (join (_dataset_dir self) c))
    | [] => raise IndexError
    end.

(** The part of the generic branch that follows [download_file]. *)
Definition unpack (self : DataDownloader) (file_path : string) : M World Downloaded :=
  do f <- isfile file_path;
  if f : bool then
    do t <- is_tarfile file_path;
    if t : bool then
      do contents <- extract_tar_file file_path (_dataset_dir self);
      extracted self contents
    else
      do z <- is_zipfile file_path;
      if z : bool then
        do contents <- extract_zip_file file_path (_dataset_dir self);
        extracted self contents
      else ret (Path file_path)
  else raise FileNotFoundError.

Definition download {E : Externals} (self : DataDownloader) (split : pyval)
  : M World Downloaded :=
  match _type self with
  | TENSORFLOW_DATASETS =>
      let split := if isinstance_str split then VList [split] else split in
      setenv "NO_GCE_CHECK" "true";;
      do o <- call (TfdsLoad (_dataset_name self) (_dataset_dir self) split (_args self));
      ret (Dataset o)
  | TORCHVISION =>
      do o <- except_TypeError
                (call (TorchvisionDataset (_dataset_name self) (_dataset_dir self)
                         true (BySplit split)))
                (call (TorchvisionDataset (_dataset_name self) (_dataset_dir self)
                         true (ByTrain (eq_str split "train"))));
      ret (Dataset o)
  | HUGGING_FACE =>
      do o <- call (HfLoadDataset (_dataset_name self) (_args self !! "subset")
                      split (_dataset_dir self));
      ret (Dataset o)
  | GENERIC =>
      match _url self with
      | Some url =>
          do file_path <- download_file url (_dataset_dir self);
          unpack self file_path
      | None => raise TypeError
      end
  end.

(** Modelled from the spec: [DatasetType.from_str] of
    [ai_downloader/types.py] is not among the sources.  The constructor
    documents its options: 'tensorflow_datasets', 'torchvision',
    'hugging_face', and [None] for a GENERIC dataset; any other name is
    taken to be refused. *)
Definition documented_from_str (catalog : option string) : outcome DatasetType :=
  match catalog with
  | None => Return GENERIC
  | Some c =>
      if String.eqb c "tensorflow_datasets" then Return TENSORFLOW_DATASETS
      else if String.eqb c "torchvision" then Return TORCHVISION
      else if String.eqb c "hugging_face" then Return HUGGING_FACE
      else Raise ValueError
  end.

(** A torchvision class that takes [train=...] and no [split=...], next
    to SDKs that accept every other call. *)
Definition sample_respond (c : SdkCall) : outcome SdkObject :=
  match c with
  | TorchvisionDataset _ _ _ (BySplit _) => Raise TypeError
  | _ => Return 0%nat
  end.

Definition sample_externals : Externals :=
  {| from_str := documented_from_str; respond := sample_respond |}.

(** A downloader for a web archive, with a relative dataset directory. *)
Definition flowers : DataDownloader :=
  {| _dataset_name := "flowers";
     _dataset_dir := "data";
     _type := GENERIC;
     _url := Some "http://host/flowers.tgz";
     _args := ∅ |}.

(** A world with nothing on disk and one archive on the web. *)
Definition sample_world : World :=
  {| dirs := ∅;
     files := ∅;
     web := {[ "http://host/flowers.tgz" := TarArchive ["a/x.jpg"; "a/y.jpg"; "b/z.jpg"] ]};
     environ := ∅;
     sdk_log := [] |}.

End Downloader.

(** ** The PyTorch dataset wrapper ([tlk/datasets/pytorch_dataset.py]) *)

Module TorchDataset.

Local Open Scope py_scope.

(** *** Objects of the torch library *)

(** The state of a [torch.Generator]. *)
Definition Gen : Set := Z.

(** [torchvision.transforms]; a [T.Compose] is a list of them. *)
Inductive Transform : Type :=
| Resize (height width : pyval)
| ToTensor
| Normalize (mean std : list float).

(** The torch dataset object behind [self._dataset]: its length and its
    [transform] attribute. *)
Record TorchData := {
  data_len : nat;
  transform : option (list Transform)
}.

(** What a loader reads: the whole dataset object, or a
    [torch.utils.data.Subset] of it given by indices.  Both refer to the
    dataset object of the wrapper, they do not copy it. *)
Inductive Source : Type :=
| Whole
| Subset (indices : list nat).

Record DataLoader := {
  source : Source;
  batch_size : pyval;
  shuffle : bool;
  num_workers : Z;
  generator : option Gen
}.

(** A batch, as the indices of its examples. *)
Definition Batch : Set := list nat.

Record PyTorchDataset := {
  _dataset : option TorchData;
  _train_indices : option (list nat);
  _validation_indices : option (list nat);
  _test_indices : option (list nat);
  _train_subset : option Source;
  _validation_subset : option Source;
  _test_subset : option Source;
  _data_loader : option DataLoader;
  _train_loader : option DataLoader;
  _validation_loader : option DataLoader;
  _test_loader : option DataLoader;
  _preprocessed : option (gmap string pyval);
  _validation_type : option string;
  _shuffle : bool;
  _num_workers : Z
}.

Definition set_dataset (v : option TorchData) (self : PyTorchDataset) : PyTorchDataset :=
  {| _dataset := v;
     _train_indices := _train_indices self;
     _validation_indices := _validation_indices self;
     _test_indices := _test_indices self;
     _train_subset := _train_subset self;
     _validation_subset := _validation_subset self;
     _test_subset := _test_subset self;
     _data_loader := _data_loader self;
     _train_loader := _train_loader self;
     _validation_loader := _validation_loader self;
     _test_loader := _test_loader self;
     _preprocessed := _preprocessed self;
     _validation_type := _validation_type self;
     _shuffle := _shuffle self;
     _num_workers := _num_workers self |}.

Definition set_train_indices (v : option (list nat)) (self : PyTorchDataset) : PyTorchDataset :=
  {| _dataset := _dataset self;
     _train_indices := v;
     _validation_indices := _validation_indices self;
     _test_indices := _test_indices self;
     _train_subset := _train_subset self;
     _validation_subset := _validation_subset self;
     _test_subset := _test_subset self;
     _data_loader := _data_loader self;
     _train_loader := _train_loader self;
     _validation_loader := _validation_loader self;
     _test_loader := _test_loader self;
     _preprocessed := _preprocessed self;
     _validation_type := _validation_type self;
     _shuffle := _shuffle self;
     _num_workers := _num_workers self |}.

Definition set_validation_indices (v : option (list nat)) (self : PyTorchDataset) : PyTorchDataset :=
  {| _dataset := _dataset self;
     _train_indices := _train_indices self;
     _validation_indices := v;
     _test_indices := _test_indices self;
     _train_subset := _train_subset self;
     _validation_subset := _validation_subset self;
     _test_subset := _test_subset self;
     _data_loader := _data_loader self;
     _train_loader := _train_loader self;
     _validation_loader := _validation_loader self;
     _test_loader := _test_loader self;
     _preprocessed := _preprocessed self;
     _validation_type := _validation_type self;
     _shuffle := _shuffle self;
     _num_workers := _num_workers self |}.

Definition set_test_indices (v : option (list nat)) (self : PyTorchDataset) : PyTorchDataset :=
  {| _dataset := _dataset self;
     _train_indices := _train_indices self;
     _validation_indices := _validation_indices self;
     _test_indices := v;
     _train_subset := _train_subset self;
     _validation_subset := _validation_subset self;
     _test_subset := _test_subset self;
     _data_loader := _data_loader self;
     _train_loader := _train_loader self;
     _validation_loader := _validation_loader self;
     _test_loader := _test_loader self;
     _preprocessed := _preprocessed self;
     _validation_type := _validation_type self;
     _shuffle := _shuffle self;
     _num_workers := _num_workers self |}.

Definition set_data_loader (v : option DataLoader) (self : PyTorchDataset) : PyTorchDataset :=
  {| _dataset := _dataset self;
     _train_indices := _train_indices self;
     _validation_indices := _validation_indices self;
     _test_indices := _test_indices self;
     _train_subset := _train_subset self;
     _validation_subset := _validation_subset self;
     _test_subset := _test_subset self;
     _data_loader := v;
     _train_loader := _train_loader self;
     _validation_loader := _validation_loader self;
     _test_loader := _test_loader self;
     _preprocessed := _preprocessed self;
     _validation_type := _validation_type self;
     _shuffle := _shuffle self;
     _num_workers := _num_workers self |}.

Definition set_train_loader (v : option DataLoader) (self : PyTorchDataset) : PyTorchDataset :=
  {| _dataset := _dataset self;
     _train_indices := _train_indices self;
     _validation_indices := _validation_indices self;
     _test_indices := _test_indices self;
     _train_subset := _train_subset self;
     _validation_subset := _validation_subset self;
     _test_subset := _test_subset self;
     _data_loader := _data_loader self;
     _train_loader := v;
     _validation_loader := _validation_loader self;
     _test_loader := _test_loader self;
     _preprocessed := _preprocessed self;
     _validation_type := _validation_type self;
     _shuffle := _shuffle self;
     _num_workers := _num_workers self |}.

Definition set_validation_loader (v : option DataLoader) (self : PyTorchDataset) : PyTorchDataset :=
  {| _dataset := _dataset self;
     _train_indices := _train_indices self;
     _validation_indices := _validation_indices self;
     _test_indices := _test_indices self;
     _train_subset := _train_subset self;
     _validation_subset := _validation_subset self;
     _test_subset := _test_subset self;
     _data_loader := _data_loader self;
     _train_loader := _train_loader self;
     _validation_loader := v;
     _test_loader := _test_loader self;
     _preprocessed := _preprocessed self;
     _validation_type := _validation_type self;
     _shuffle := _shuffle self;
     _num_workers := _num_workers self |}.

Definition set_test_loader (v : option DataLoader) (self : PyTorchDataset) : PyTorchDataset :=
  {| _dataset := _dataset self;
     _train_indices := _train_indices self;
     _validation_indices := _validation_indices self;
     _test_indices := _test_indices self;
     _train_subset := _train_subset self;
     _validation_subset := _validation_subset self;
     _test_subset := _test_subset self;
     _data_loader := _data_loader self;
     _train_loader := _train_loader self;
     _validation_loader := _validation_loader self;
     _test_loader := v;
     _preprocessed := _preprocessed self;
     _validation_type := _validation_type self;
     _shuffle := _shuffle self;
     _num_workers := _num_workers self |}.

Definition set_preprocessed (v : option (gmap string pyval)) (self : PyTorchDataset) : PyTorchDataset :=
  {| _dataset := _dataset self;
     _train_indices := _train_indices self;
     _validation_indices := _validation_indices self;
     _test_indices := _test_indices self;
     _train_subset := _train_subset self;
     _validation_subset := _validation_subset self;
     _test_subset := _test_subset self;
     _data_loader := _data_loader self;
     _train_loader := _train_loader self;
     _validation_loader := _validation_loader self;
     _test_loader := _test_loader self;
     _preprocessed := v;
     _validation_type := _validation_type self;
     _shuffle := _shuffle self;
     _num_workers := _num_workers self |}.

Definition set_validation_type (v : option string) (self : PyTorchDataset) : PyTorchDataset :=
  {| _dataset := _dataset self;
     _train_indices := _train_indices self;
     _validation_indices := _validation_indices self;
     _test_indices := _test_indices self;
     _train_subset := _train_subset self;
     _validation_subset := _validation_subset self;
     _test_subset := _test_subset self;
     _data_loader := _data_loader self;
     _train_loader := _train_loader self;
     _validation_loader := _validation_loader self;
     _test_loader := _test_loader self;
     _preprocessed := _preprocessed self;
     _validation_type := v;
     _shuffle := _shuffle self;
     _num_workers := _num_workers self |}.

(** The wrapper object together with torch's default generator. *)
Record State := {
  this : PyTorchDataset;
  default_generator : Gen
}.

Definition update (f : PyTorchDataset -> PyTorchDataset) : M State unit :=
  modify (fun s => {| this := f (this s); default_generator := default_generator s |}).

(** The torch functions this module calls: seeding a fresh generator,
    drawing a random permutation from a generator (which advances it),
    and iterating over a loader. *)
Class Torch := {
  manual_seed : Z -> Gen;
  randperm : nat -> Gen -> list nat * Gen;
  batches : State -> DataLoader -> list Batch
}.

(** [torch.randperm(n)] returns a permutation of [0, ..., n-1]. *)
Class TorchLaws {T : Torch} : Prop := {
  randperm_perm : forall n g, (randperm n g).1 ≡ₚ seq 0 n
}.

(** *** Python truthiness and slicing *)

(** [bool(d)] for an optional dataset object: torch datasets define
    [__len__], so an empty one is falsy, like [None]. *)
Definition dataset_truthy (d : option TorchData) : bool :=
  match d with
  | Some d => negb (Nat.eqb (data_len d) 0)
  | None => false
  end.

Definition list_truthy {A} (l : option (list A)) : bool :=
  match l with
  | Some (_ :: _) => true
  | _ => false
  end.

Definition dict_truthy (d : option (gmap string pyval)) : bool :=
  match d with
  | Some m => negb (bool_decide (m = ∅))
  | None => false
  end.

Definition is_not_None {A} (o : option A) : bool :=
  match o with Some _ => true | None => false end.

(** Where a slice bound lands in a list of length [n]: negative bounds
    count from the end, and everything is clipped to [0, n]. *)
Definition clip (n i : Z) : Z :=
  if i <? 0 then Z.max (i + n) 0 else Z.min i n.

(** [l[start:stop]] *)
Definition slice {A} (l : list A) (start stop : Z) : list A :=
  let n := Z.of_nat (length l) in
  let a := clip n start in
  let b := clip n stop in
  take (Z.to_nat (b - a)) (drop (Z.to_nat a) l).

(** [int(pct * length)] for a float [pct] and an int [length]: the int is
    converted to a float first, which overflows when it is too large. *)
Definition int_times (pct : float) (length : Z) : outcome Z :=
  let l := Float64.of_int length in
  if Float64.is_finite l then Float64.to_int (Float64.mul pct l)
  else Raise OverflowError.

(** [int(pct * length)] where [length] is a [len(...)] *)
Definition scaled (pct : float) (length : nat) : outcome Z :=
  int_times pct (Z.of_nat length).

(** *** Properties *)

Definition train_subset (self : PyTorchDataset) : option Source :=
  if list_truthy (_train_indices self)
  then Subset <$> _train_indices self else None.

Definition validation_subset (self : PyTorchDataset) : option Source :=
  if list_truthy (_validation_indices self)
  then Subset <$> _validation_indices self else None.

Definition test_subset (self : PyTorchDataset) : option Source :=
  if list_truthy (_test_indices self)
  then Subset <$> _test_indices self else None.

(** *** Methods *)

(** [next(iter(l))] *)
Definition next_iter {T : Torch} (l : option DataLoader) : M State Batch :=
  match l with
  | None => raise TypeError
  | Some l =>
      do s <- get;
      match batches s l with
      | b :: _ => ret b
      | [] => raise StopIteration
      end
  end.

Definition get_batch {T : Torch} (subset : pyval) : M State Batch :=
  do self <- gets this;
  if eq_str subset "all" && is_not_None (_dataset self) then
    next_iter (_data_loader self)
  else if eq_str subset "train" && is_not_None (_train_subset self) then
    next_iter (_train_loader self)
  else if eq_str subset "validation" && is_not_None (_validation_subset self) then
    next_iter (_validation_loader self)
  else if eq_str subset "test" && is_not_None (_test_subset self) then
    next_iter (_test_loader self)
  else raise ValueError.

(** [loader(src, batch_size=..., shuffle=self._shuffle,
    num_workers=self._num_workers, generator=...)]: the loader is the
    record of the arguments it is built from.  torch builds it for a
    batch size that is an int, not a bool, and at least 1, and a number
    of workers that is not negative; what it raises otherwise is not
    part of this record. *)
Definition batch_size_accepted (batch_size : pyval) : bool :=
  match batch_size with
  | VInt z => 1 <=? z
  | _ => false
  end.

Definition loader (self : PyTorchDataset) (src : Source) (batch_size : pyval)
  (generator : option Gen) : DataLoader :=
  {| source := src; batch_size := batch_size; shuffle := _shuffle self;
     num_workers := _num_workers self; generator := generator |}.

Definition subset_loader (self : PyTorchDataset) (indices : option (list nat))
  (batch_size : pyval) (generator : option Gen) : option DataLoader :=
  if list_truthy indices
  then (fun i => loader self (Subset i) batch_size generator) <$> indices
  else None.

Definition _make_data_loaders (batch_size : pyval) (generator : option Gen)
  : M State unit :=
  do self <- gets this;
  update (set_data_loader
            (if dataset_truthy (_dataset self)
             then Some (loader self Whole batch_size generator) else None));;
  update (set_train_loader
            (subset_loader self (_train_indices self) batch_size generator));;
  update (set_validation_loader
            (subset_loader self (_validation_indices self) batch_size generator));;
  update (set_test_loader
            (subset_loader self (_test_indices self) batch_size generator)).

(** [len(self._dataset)] *)
Definition len_dataset : M State nat :=
  do self <- gets this;
  match _dataset self with
  | Some d => ret (data_len d)
  | None => raise TypeError
  end.

(** [torch.Generator().manual_seed(seed) if seed else None].  torch
    takes a seed in the 64-bit range from [-2^63] to [2^64 - 1]; what it
    raises outside of it is not part of [manual_seed]. *)
Definition seed_accepted (seed : option Z) : bool :=
  match seed with
  | Some z => (- 2 ^ 63 <=? z) && (z <? 2 ^ 64)
  | None => true
  end.

Definition seeded {T : Torch} (seed : option Z) : option Gen :=
  match seed with
  | Some z => if z =? 0 then None else Some (manual_seed z)
  | None => None
  end.

(** [torch.randperm(length, generator=generator).tolist()]: draws from
    the given generator, or from the default one, and advances it. *)
Definition draw_permutation {T : Torch} (length : nat) (generator : option Gen)
  : M State (list nat * option Gen) :=
  match generator with
  | Some g => let '(p, g') := randperm length g in ret (p, Some g')
  | None =>
      fun s => let '(p, g') := randperm length (default_generator s) in
               (Return (p, None), {| this := this s; default_generator := g' |})
  end.

Definition shuffle_split {T : Torch} (train_pct val_pct test_pct : pyval)
  (seed : option Z) : M State unit :=
  match train_pct, val_pct, test_pct with
  | VFloat train, VFloat val, VFloat test =>
      if Float64.ltb Float64.one (Float64.add (Float64.add train val) test)
      then raise ValueError
      else
        do length <- len_dataset;
        do train_size <- lift (scaled train length);
        do val_size <- lift (scaled val length);
        do test_size <- lift (scaled test length);
        do pg <- draw_permutation length (seeded seed);
        let '(dataset_indices, generator) := pg in
        update (set_train_indices (Some (slice dataset_indices 0 train_size)));;
        update (set_validation_indices
                  (Some (slice dataset_indices train_size (train_size + val_size))));;
        update (set_test_indices
                  (if Float64.truthy test
                   then Some (slice dataset_indices (train_size + val_size)
                                (train_size + val_size + test_size))
                   else None));;
        update (set_validation_type (Some "shuffle_split"));;
        do self <- gets this;
        if dict_truthy (_preprocessed self) then
          match _preprocessed self ≫= (fun d => d !! "batch_size") with
          | Some b => _make_data_loaders b generator
          | None => ret tt
          end
        else ret tt
  | _, _, _ => raise ValueError
  end.

(** [get_transform(image_size)] *)
Definition get_transform (image_size : pyval) : list Transform :=
  (if isinstance_int image_size then [Resize image_size image_size] else [])
  ++ [ToTensor;
      Normalize [Float64.dec 485 1000; Float64.dec 456 1000; Float64.dec 406 1000]
                [Float64.dec 229 1000; Float64.dec 224 1000; Float64.dec 225 1000]].

(** [self._dataset.transform = t] *)
Definition set_transform (t : list Transform) (self : PyTorchDataset) : PyTorchDataset :=
  set_dataset
    ((fun d => {| data_len := data_len d; transform := Some t |}) <$> _dataset self)
    self.

Definition preprocess (image_size batch_size : pyval) : M State unit :=
  do self <- gets this;
  if negb (dataset_truthy (_dataset self)) then raise ValueError else
  if dict_truthy (_preprocessed self) then raise ValueError else
  do bad <- lift (if negb (isinstance_int batch_size) then Return true
                  else lt_num batch_size (NInt 1));
  if bad : bool then raise ValueError else
  do bad <- lift (if negb (eq_str image_size "variable")
                  then (if isinstance_int image_size
                        then negb <$> ge_num image_size (NInt 1)
                        else Return true)
                  else Return false);
  if bad : bool then raise ValueError else
  update (set_transform (get_transform image_size));;
  _make_data_loaders batch_size None;;
  update (set_preprocessed
            (Some (<["image_size" := image_size]>
                     (<["batch_size" := batch_size]> ∅)))).

(** *** A stand-in for torch, and sample datasets *)

(** Seeding stores the seed; a permutation is [0, ..., n-1] rotated by
    the generator's state; a loader yields a single batch, the first
    [batch_size] of its indices. *)
Definition sample_randperm (n : nat) (g : Gen) : list nat * Gen :=
  let k := Z.to_nat (g mod Z.of_nat n) in
  ((drop k (seq 0 n) ++ take k (seq 0 n))%list, g + 1).

Definition sample_batches (s : State) (l : DataLoader) : list Batch :=
  let indices :=
    match source l with
    | Subset i => i
    | Whole => match _dataset (this s) with
               | Some d => seq 0 (data_len d)
               | None => []
               end
    end in
  let b := match batch_size l with VInt z => Z.to_nat z | _ => 1%nat end in
  match indices with
  | [] => []
  | _ => [take b indices]
  end.

Definition sample_torch : Torch :=
  {| manual_seed := fun z => z;
     randperm := sample_randperm;
     batches := sample_batches |}.

(** A wrapper around a dataset of [n] examples on which nothing has been
    called yet. *)
Definition loaded (n : nat) : State :=
  {| this :=
       {| _dataset := Some {| data_len := n; transform := None |};
          _train_indices := None;
          _validation_indices := None;
          _test_indices := None;
          _train_subset := None;
          _validation_subset := None;
          _test_subset := None;
          _data_loader := None;
          _train_loader := None;
          _validation_loader := None;
          _test_loader := None;
          _preprocessed := None;
          _validation_type := None;
          _shuffle := false;
          _num_workers := 0 |};
     default_generator := 0 |}.

End TorchDataset.

(** * Properties *)

(** ** [get_inc_config] *)

Module IncSpec.

Import Inc.

(** "A float between 0.0 and 1.0 inclusive" *)
Definition float_in_unit (v : pyval) : bool :=
  match v with
  | VFloat f => Float64.leb Float64.zero f && Float64.leb f Float64.one
  | _ => false
  end.

(** "An integer greater than or equal to [k]"; integers are the instances
    of [int], which include the two booleans. *)
Definition int_at_least (k : Z) (v : pyval) : bool :=
  match v with
  | VInt z => k <=? z
  | VBool b => k <=? Z.b2z b
  | _ => false
  end.

(** The integer zero ([0] or [False]) and the float zero ([0.0], [-0.0]) *)
Definition int_zero (v : pyval) : bool :=
  match v with
  | VInt z => z =? 0
  | VBool b => negb b
  | _ => false
  end.

Definition float_zero (v : pyval) : bool :=
  match v with
  | VFloat f => Float64.eqb f Float64.zero
  | _ => false
  end.

(** What each of the three checks lets through. *)
Definition accuracy_accepted (v : pyval) : bool := float_in_unit v || int_zero v.
Definition timeout_accepted (v : pyval) : bool := int_at_least 0 v || float_zero v.
Definition max_trials_accepted (v : pyval) : bool := int_at_least 1 v.

(** A value that is a number or is truthy: on such a value none of the
    three checks reaches an ordering that Python does not define. *)
Definition orderable (v : pyval) : bool :=
  match as_num v with Some _ => true | None => truthy v end.

(** The configuration built from the three arguments. *)
Definition config (a t m : pyval) : PostTrainingQuantConfig :=
  {| approach := "static";
     device := "cpu";
     accuracy_criterion := {| tolerable_loss := a |};
     tuning_criterion := {| timeout := t; max_trials := m |} |}.

(** What the library's constructors answer on the three arguments once
    the checks have let them through. *)
Definition construct {N : NeuralCompressor} (a t m : pyval)
  : outcome PostTrainingQuantConfig :=
  accuracy_criterion ← new_AccuracyCriterion a;
  tuning_criterion ← new_TuningCriterion t m;
  new_PostTrainingQuantConfig "static" "cpu" accuracy_criterion tuning_criterion.

(** The property as first stated: [ValueError] exactly when some argument
    is outside its documented type and range, and the configuration
    otherwise. *)
Definition raises_iff_out_of_range {N : NeuralCompressor} (a t m : pyval) : Prop :=
  (get_inc_config a t m = Raise ValueError <->
   float_in_unit a = false \/ int_at_least 0 t = false \/ int_at_least 1 m = false)
  /\ (get_inc_config a t m <> Raise ValueError ->
      get_inc_config a t m = Return (config a t m)).

Lemma accuracy_check (a : pyval) :
  orderable a = true ->
  rejects a isinstance_float (negb <$> in_unit_interval a)
  = Return (negb (accuracy_accepted a)).
Proof.
  destruct a as [ |b|z|f|s|l]; try discriminate.
  - destruct b; reflexivity.
  - destruct z; reflexivity.
  - intros _. destruct f as [s|s| |s m e]; try destruct s; try reflexivity.
    unfold rejects, accuracy_accepted, float_in_unit, in_unit_interval,
      num_le, le_num, Float64.leb, SFleb.
    cbn [truthy isinstance_float negb andb as_num num_compare].
    generalize (SFcompare (S754_finite false m e) Float64.one).
    intros [[ | | ]|]; reflexivity.
  - destruct s; [discriminate | reflexivity].
  - destruct l; [discriminate | reflexivity].
Qed.

Lemma timeout_check (t : pyval) :
  orderable t = true ->
  rejects t isinstance_int (lt_num t (NInt 0))
  = Return (negb (timeout_accepted t)).
Proof.
  destruct t as [ |b|z|f|s|l]; try discriminate.
  - destruct b; reflexivity.
  - destruct z; reflexivity.
  - intros _. destruct f as [s|s| |s m e]; try destruct s; reflexivity.
  - destruct s; [discriminate | reflexivity].
  - destruct l; [discriminate | reflexivity].
Qed.

Lemma max_trials_check (m : pyval) :
  orderable m = true ->
  rejects m isinstance_int (lt_num m (NInt 1))
  = Return (negb (max_trials_accepted m)).
Proof.
  destruct m as [ |b|z|f|s|l]; try discriminate.
  - destruct b; reflexivity.
  - destruct z as [ |[p|p| ]|p]; reflexivity.
  - intros _. destruct f as [s|s| |s m e]; try destruct s; reflexivity.
  - destruct s; [discriminate | reflexivity].
  - destruct l; [discriminate | reflexivity].
Qed.

(** When the library's constructors return, they return the
    configuration holding the three values. *)
Lemma construct_Return {N : NeuralCompressor} (a t m : pyval)
  (c : PostTrainingQuantConfig) :
  construct a t m = Return c -> c = config a t m.
Proof.
  unfold construct, new_AccuracyCriterion, new_TuningCriterion,
    new_PostTrainingQuantConfig, config.
  destruct (check_AccuracyCriterion a) as [[]|]; [|discriminate].
  destruct (check_TuningCriterion t m) as [[]|]; [|discriminate].
  destruct (check_PostTrainingQuantConfig "static" "cpu") as [[]|];
    [|discriminate].
  cbn. congruence.
Qed.

(** On orderable arguments the function is a plain conjunction of the
    three acceptance tests, followed by the library's constructors. *)
Lemma get_inc_config_orderable {N : NeuralCompressor} (a t m : pyval) :
  orderable a = true -> orderable t = true -> orderable m = true ->
  get_inc_config a t m
  = if accuracy_accepted a && timeout_accepted t && max_trials_accepted m
    then construct a t m else Raise ValueError.
Proof.
  intros Ha Ht Hm. unfold get_inc_config.
  rewrite (accuracy_check a Ha), (timeout_check t Ht), (max_trials_check m Hm).
  destruct (accuracy_accepted a), (timeout_accepted t), (max_trials_accepted m);
    reflexivity.
Qed.

(** A falsy value that is not a number is not rejected by the type test
    and then fails the ordering: [TypeError], not [ValueError]. *)
Example get_inc_config_None (N : NeuralCompressor) :
  get_inc_config VNone (VInt 0) (VInt 50) = Raise TypeError.
Proof. reflexivity. Qed.

(** The test-suite's rows ([test_inc.py]), with a library that asserts
    the types it is given *)
Example get_inc_config_tests :
  let N := asserting in
  get_inc_config (VFloat (Float64.dec 1 10)) (VInt 0) (VInt 50)
    = Return (config (VFloat (Float64.dec 1 10)) (VInt 0) (VInt 50))
  /\ get_inc_config (VInt (-1)) (VInt 0) (VInt 50) = Raise ValueError
  /\ get_inc_config (VFloat (Float64.dec 1434 1000)) (VInt 0) (VInt 50) = Raise ValueError
  /\ get_inc_config (VStr "foo") (VInt 0) (VInt 50) = Raise ValueError
  /\ get_inc_config (VFloat (Float64.dec 1 100)) (VFloat (Float64.dec 1 10)) (VInt 50)
     = Raise ValueError
  /\ get_inc_config (VFloat (Float64.dec 1 100)) (VInt 60) (VInt 50)
     = Return (config (VFloat (Float64.dec 1 100)) (VInt 60) (VInt 50))
  /\ get_inc_config (VFloat (Float64.dec 1 100)) (VInt 0) (VInt 0) = Raise ValueError
  /\ get_inc_config (VFloat (Float64.dec 1 100)) (VInt 0) (VStr "foo") = Raise ValueError.
Proof. repeat split; vm_compute; reflexivity. Qed.

(** The integer [0] as accuracy criterion and the float [0.0] as timeout
    pass the checks of [get_inc_config]; a library that asserts the types
    then refuses them with its own exception. *)
Example get_inc_config_zero :
  let N := asserting in
  get_inc_config (VInt 0) (VInt 0) (VInt 50) = Raise AssertionError
  /\ get_inc_config (VFloat (Float64.dec 1 100)) (VFloat Float64.zero) (VInt 50)
     = Raise AssertionError.
Proof. split; vm_compute; reflexivity. Qed.

(** C1, as stated, fails: the integer [0] is not a float, yet the call
    does not raise [ValueError], because a falsy value skips the type test
    and [0.0 <= 0 <= 1.0] holds; the value reaches the library, which here
    refuses it with an [AssertionError]. *)
Lemma get_inc_config_accepts_int_zero :
  ~ raises_iff_out_of_range (N := asserting) (VInt 0) (VInt 0) (VInt 50).
Proof.
  intros [[_ H] _].
  assert (E : get_inc_config (N := asserting) (VInt 0) (VInt 0) (VInt 50)
              = Raise ValueError)
    by (apply H; left; reflexivity).
  vm_compute in E. discriminate E.
Qed.

(** C1, amended: on arguments each of which is a number or truthy, and
    whatever the library's constructors do, [get_inc_config] raises
    [ValueError] without reaching them when the accuracy criterion is
    neither a float in [0.0, 1.0] nor the integer zero, or the timeout is
    neither an integer at least 0 nor the float zero, or max_trials is not
    an integer at least 1; otherwise its outcome is that of
    [AccuracyCriterion], [TuningCriterion] and [PostTrainingQuantConfig]
    on the three values with approach static and device cpu: what they
    raise is raised, and a configuration that is returned holds the three
    values.  Hence, when those constructors do not themselves raise
    [ValueError], [ValueError] is raised if and only if one of the three
    tests fails. *)
Theorem get_inc_config_spec {N : NeuralCompressor} (a t m : pyval) :
  orderable a = true -> orderable t = true -> orderable m = true ->
  (accuracy_accepted a = false \/ timeout_accepted t = false
   \/ max_trials_accepted m = false ->
   forall N' : NeuralCompressor,
     get_inc_config (N := N') a t m = Raise ValueError)
  /\ (accuracy_accepted a = true -> timeout_accepted t = true ->
      max_trials_accepted m = true ->
      get_inc_config a t m = construct a t m)
  /\ (forall c, get_inc_config a t m = Return c ->
      c = config a t m
      /\ approach c = "static"
      /\ device c = "cpu"
      /\ tolerable_loss (accuracy_criterion c) = a
      /\ timeout (tuning_criterion c) = t
      /\ max_trials (tuning_criterion c) = m)
  /\ (construct a t m <> Raise ValueError ->
      (get_inc_config a t m = Raise ValueError <->
       accuracy_accepted a = false \/ timeout_accepted t = false
       \/ max_trials_accepted m = false)).
Proof.
  intros Ha Ht Hm.
  pose proof (get_inc_config_orderable a t m Ha Ht Hm) as E.
  split; [|split; [|split]].
  - intros H N'. rewrite (get_inc_config_orderable a t m Ha Ht Hm).
    destruct H as [-> |[-> | ->]]; rewrite ?andb_false_r; reflexivity.
  - intros Ha' Ht' Hm'. rewrite E, Ha', Ht', Hm'. reflexivity.
  - intros c Hc. rewrite E in Hc.
    destruct (accuracy_accepted a && timeout_accepted t && max_trials_accepted m);
      [|discriminate].
    apply construct_Return in Hc. subst c. repeat split.
  - intros Hv. rewrite E.
    destruct (accuracy_accepted a), (timeout_accepted t), (max_trials_accepted m);
      cbn; split; intros H; try congruence; try tauto;
      destruct H as [H|[H|H]]; discriminate H.
Qed.

Lemma get_inc_config_spec_witness :
  get_inc_config (N := asserting) (VFloat (Float64.dec 1 100)) (VInt 0) (VInt 50)
  = Return (config (VFloat (Float64.dec 1 100)) (VInt 0) (VInt 50))
  /\ get_inc_config (N := asserting) (VFloat (Float64.dec 1 100)) (VInt 0) (VInt 0)
     = Raise ValueError.
Proof.
  split.
  - destruct (get_inc_config_spec (N := asserting)
                (VFloat (Float64.dec 1 100)) (VInt 0) (VInt 50)
                eq_refl eq_refl eq_refl) as (_ & H & _).
    rewrite H by (vm_compute; reflexivity). vm_compute. reflexivity.
  - destruct (get_inc_config_spec (N := asserting)
                (VFloat (Float64.dec 1 100)) (VInt 0) (VInt 0)
                eq_refl eq_refl eq_refl) as (H & _).
    apply H. right. right. vm_compute. reflexivity.
Defined.

End IncSpec.

(** ** [DataDownloader] *)

Module DownloaderSpec.

Import Downloader.

Local Open Scope py_scope.
Local Open Scope list_scope.

(** *** The constructor *)

Section Init.

Context {E : Externals}.

Variables (dataset_name dataset_dir : string) (catalog url : option string).
Variable kwargs : gmap string pyval.





End Init.






(** *** Calls into the vendor SDKs *)

(** A computation that calls no SDK leaves the log of calls as it was. *)
Definition quiet {A} (m : M World A) : Prop :=
  forall w, sdk_log (m w).2 = sdk_log w.

Lemma quiet_ret {A} (a : A) : quiet (ret a).
Proof. intros w. reflexivity. Qed.

Lemma quiet_raise {A} (e : exn) : quiet (raise (A := A) e).
Proof. intros w. reflexivity. Qed.

Lemma quiet_gets {A} (f : World -> A) : quiet (gets f).
Proof. intros w. reflexivity. Qed.

Lemma quiet_get : quiet get.
Proof. intros w. reflexivity. Qed.

Lemma quiet_modify (f : World -> World) :
  (forall w, sdk_log (f w) = sdk_log w) -> quiet (modify f).
Proof. intros Hf w. apply Hf. Qed.

Lemma quiet_bind {A B} (m : M World A) (k : A -> M World B) :
  quiet m -> (forall a, quiet (k a)) -> quiet (bind m k).
Proof.
  intros Hm Hk w. unfold bind. specialize (Hm w).
  destruct (m w) as [[a|e] w']; simpl in *; [rewrite Hk|]; exact Hm.
Qed.

Lemma quiet_urlopen (url : string) : quiet (urlopen url).
Proof. intros w. unfold urlopen. destruct (web w !! url); reflexivity. Qed.

Ltac quiet_step :=
  first
    [ apply quiet_ret | apply quiet_raise | apply quiet_gets | apply quiet_get
    | apply quiet_urlopen
    | apply quiet_modify; intros ?; reflexivity
    | apply quiet_bind; [|intros ?]
    | match goal with
      | |- quiet (if ?b then _ else _) => destruct b
      | |- quiet (match ?x with _ => _ end) => destruct x
      | |- quiet (let (_, _) := ?x in _) => destruct x
      end ].

Ltac quiet := repeat quiet_step.

Lemma quiet_download_file (url dir : string) : quiet (download_file url dir).
Proof. unfold download_file, store, isdir, makedirs, write_file. quiet. Qed.

Lemma quiet_extract_tar_file (p dir : string) : quiet (extract_tar_file p dir).
Proof. unfold extract_tar_file, extractall, isdir, makedirs. quiet. Qed.

Lemma quiet_extract_zip_file (p dir : string) : quiet (extract_zip_file p dir).
Proof. unfold extract_zip_file, extractall, isdir, makedirs. quiet. Qed.

Lemma quiet_unpack (self : DataDownloader) (p : string) : quiet (unpack self p).
Proof.
  unfold unpack, extracted, isfile, is_tarfile, is_zipfile.
  repeat first [ apply quiet_extract_tar_file | apply quiet_extract_zip_file
               | quiet_step ].
Qed.

(** The SDK that serves a dataset type; the generic type has none. *)
Definition vendor_for (t : DatasetType) : option Vendor :=
  match t with
  | TENSORFLOW_DATASETS => Some Tfds
  | TORCHVISION => Some Torchvision
  | HUGGING_FACE => Some HuggingFace
  | GENERIC => None
  end.

(** [tfds.load] is given the split as a list. *)
Definition as_split_list (split : pyval) : pyval :=
  if isinstance_str split then VList [split] else split.

(** C4: [download] dispatches on the dataset type.  For
    TENSORFLOW_DATASETS the one call is [tfds.load] with the name, the
    directory and the split, wrapped into a singleton list when it is a
    string; for TORCHVISION the class named by the dataset name is
    instantiated with [download=True] and the split, and once more with
    [train=(split == 'train')] when that raised [TypeError]; for
    HUGGING_FACE the one call is [load_dataset] with the name, the split,
    the directory as cache_dir and the subset when the keyword arguments
    hold one; for GENERIC no SDK is called and the stored url is
    downloaded.  Every call made goes to the SDK of the dataset type. *)
Theorem download_dispatch {E : Externals} (self : DataDownloader) (split : pyval)
  (w : World) :
  let r := download self split w in
  match _type self with
  | TENSORFLOW_DATASETS =>
      let c := TfdsLoad (_dataset_name self) (_dataset_dir self)
                 (as_split_list split) (_args self) in
      r.1 = Dataset <$> respond c /\ sdk_log r.2 = sdk_log w ++ [c]
  | TORCHVISION =>
      let c1 := TorchvisionDataset (_dataset_name self) (_dataset_dir self) true
                  (BySplit split) in
      let c2 := TorchvisionDataset (_dataset_name self) (_dataset_dir self) true
                  (ByTrain (eq_str split "train")) in
      match respond c1 with
      | Raise TypeError =>
          r.1 = Dataset <$> respond c2 /\ sdk_log r.2 = sdk_log w ++ [c1; c2]
      | o => r.1 = Dataset <$> o /\ sdk_log r.2 = sdk_log w ++ [c1]
      end
  | HUGGING_FACE =>
      let c := HfLoadDataset (_dataset_name self) (_args self !! "subset") split
                 (_dataset_dir self) in
      r.1 = Dataset <$> respond c /\ sdk_log r.2 = sdk_log w ++ [c]
  | GENERIC =>
      sdk_log r.2 = sdk_log w
      /\ r = match _url self with
             | Some url => bind (download_file url (_dataset_dir self)) (unpack self) w
             | None => (Raise TypeError, w)
             end
  end
  /\ exists calls,
       sdk_log r.2 = sdk_log w ++ calls
       /\ Forall (fun c => Some (vendor_of c) = vendor_for (_type self)) calls
       /\ (calls = [] <-> _type self = GENERIC).
Proof.
  intros r. subst r. unfold download, as_split_list.
  destruct (_type self) eqn:Hty.
  - unfold bind, setenv, modify, call, ret; simpl.
    destruct (respond _); simpl; (split; [split; reflexivity|]);
      eexists; (split; [reflexivity|]);
      (split; [repeat constructor | split; discriminate]).
  - unfold bind, except_TypeError, call, ret; simpl.
    destruct (respond (TorchvisionDataset _ _ true (BySplit split))) as [o|[]];
      simpl; try (split; [split; reflexivity|]; eexists; (split; [reflexivity|]);
                  (split; [repeat constructor | split; discriminate])).
    rewrite <- app_assoc. simpl.
    destruct (respond _); simpl; (split; [split; reflexivity|]);
      eexists; (split; [reflexivity|]);
      (split; [repeat constructor | split; discriminate]).
  - unfold bind, call, ret; simpl.
    destruct (respond _); simpl; (split; [split; reflexivity|]);
      eexists; (split; [reflexivity|]);
      (split; [repeat constructor | split; discriminate]).
  - assert (Hq : sdk_log
                   (match _url self with
                    | Some url =>
                        bind (download_file url (_dataset_dir self)) (unpack self)
                    | None => raise TypeError
                    end w).2 = sdk_log w).
    { destruct (_url self); [|reflexivity].
      apply quiet_bind; [apply quiet_download_file | intros ?; apply quiet_unpack]. }
    split; [split|].
    + exact Hq.
    + destruct (_url self); reflexivity.
    + exists []. rewrite app_nil_r. split; [exact Hq|]. split; [constructor|done].
Qed.

(** *** The generic branch *)

Lemma join_isabs (dir c : string) : isabs dir = true -> isabs (join dir c) = true.
Proof.
  unfold join, isabs. intros Hd.
  destruct (startswith_sep c) eqn:Hc; [exact Hc|].
  destruct dir as [|a dir]; [discriminate|].
  destruct (_ || _); exact Hd.
Qed.

Lemma elem_of_top_level (names : list string) (x : string) :
  x ∈ top_level names <-> exists n, n ∈ names /\ x = first_component n.
Proof.
  unfold top_level. rewrite elem_of_elements, elem_of_list_to_set, list_elem_of_fmap.
  split; intros [n [? ?]]; exists n; auto.
Qed.

Lemma NoDup_top_level (names : list string) : NoDup (top_level names).
Proof. unfold top_level. apply NoDup_elements. Qed.

Lemma unpack_missing (self : DataDownloader) (p : string) (w : World) :
  files w !! p = None -> unpack self p w = (Raise FileNotFoundError, w).
Proof.
  intros Hp. unfold unpack, bind, isfile, gets. simpl.
  rewrite Hp. reflexivity.
Qed.

Lemma unpack_plain (self : DataDownloader) (p : string) (w : World) :
  files w !! p = Some PlainFile -> unpack self p w = (Return (Path p), w).
Proof.
  intros Hp. unfold unpack, bind, isfile, is_tarfile, is_zipfile, gets, ret. simpl.
  repeat (rewrite Hp; simpl). reflexivity.
Qed.

Lemma extracted_many (self : DataDownloader) (contents : list string) (w : World) :
  (1 < length contents)%nat ->
  extracted self contents w = (Return (Paths (join (_dataset_dir self) <$> contents)), w).
Proof.
  intros Hl. unfold extracted.
  destruct (1 <? Z.of_nat (length contents)) eqn:Hc; [reflexivity|].
  apply Z.ltb_ge in Hc. lia.
Qed.

Lemma extracted_one (self : DataDownloader) (c : string) (w : World) :
  extracted self [c] w = (Return (Path (join (_dataset_dir self) c)), w).
Proof. reflexivity. Qed.

Lemma extracted_members (dir : string) (names : list string)
  (fs : gmap string FileContent) (n : string) :
  n ∈ names ->
  is_Some (foldr (fun n fs => <[join dir n := PlainFile]> fs) fs names !! join dir n).
Proof.
  induction names as [|m ms IH]; intros Hn; [inversion Hn|].
  simpl. destruct (decide (join dir m = join dir n)) as [->|Hne].
  - rewrite lookup_insert_eq. eauto.
  - rewrite lookup_insert_ne by exact Hne.
    apply elem_of_cons in Hn as [->|Hn]; [congruence|]. apply IH, Hn.
Qed.

(** A tar archive is extracted under the dataset directory, and what is
    returned is built from its top-level members. *)
Lemma unpack_tar (self : DataDownloader) (p : string) (names : list string)
  (w : World) :
  files w !! p = Some (TarArchive names) ->
  exists w',
    unpack self p w = extracted self (top_level names) w'
    /\ _dataset_dir self ∈ dirs w'
    /\ forall n, n ∈ names -> is_Some (files w' !! join (_dataset_dir self) n).
Proof.
  intros Hp.
  unfold unpack, bind, isfile, is_tarfile, gets. simpl. repeat (rewrite Hp; simpl).
  unfold extract_tar_file, extractall, bind, isdir, makedirs, gets, get, modify, ret.
  simpl.
  case_bool_decide as Hd; simpl; rewrite Hp; simpl;
    (eexists; split; [reflexivity|]; simpl; split;
     [set_solver | intros n Hn; apply extracted_members, Hn]).
Qed.

(** C3, at a relative dataset directory: the archive is fetched and
    extracted, and the two top-level members come back joined to the
    directory as it was given, which does not make them absolute. *)
Lemma download_relative_dataset_dir :
  (download (E := sample_externals) flowers (VStr "train") sample_world).1
  = Return (Paths ["data/a"; "data/b"])
  /\ isabs "data/a" = false /\ isabs "data/b" = false.
Proof. vm_compute. repeat split. Qed.

End DownloaderSpec.

(** ** Floats: a product of finite numbers is never NaN *)

Module Float64Facts.

Import Float64.

Lemma iter_pos_invariant {A} (P : A -> Prop) (f : A -> A) :
  (forall x, P x -> P (f x)) -> forall p x, P x -> P (SpecFloat.iter_pos f p x).
Proof.
  intros Hf. induction p as [p IH|p IH| ]; intros x Hx; simpl; auto.
Qed.

Lemma shr_1_nonneg (mrs : shr_record) : 0 <= shr_m mrs -> 0 <= shr_m (shr_1 mrs).
Proof.
  destruct mrs as [m r s]. simpl.
  destruct m as [ |[p|p| ]|[p|p| ]]; simpl; lia.
Qed.

Lemma shr_nonneg (mrs : shr_record) (e n : Z) :
  0 <= shr_m mrs -> 0 <= shr_m (shr mrs e n).1.
Proof.
  intros Hm. unfold shr. destruct n as [ |p|p]; simpl; try exact Hm.
  apply (iter_pos_invariant (fun r => 0 <= shr_m r)); [apply shr_1_nonneg | exact Hm].
Qed.

Lemma shr_fexp_nonneg (m e : Z) (l : location) :
  0 <= m -> 0 <= shr_m (shr_fexp prec emax m e l).1.
Proof.
  intros Hm. unfold shr_fexp. apply shr_nonneg.
  destruct l as [ |[ | | ]]; exact Hm.
Qed.

Lemma round_nearest_even_nonneg (m : Z) (l : location) :
  0 <= m -> 0 <= round_nearest_even m l.
Proof.
  intros Hm. unfold round_nearest_even.
  destruct l as [ |[ | | ]]; try destruct (Z.even m); lia.
Qed.

Lemma binary_round_aux_not_nan (sx : bool) (mx ex : Z) (lx : location) :
  0 <= mx -> is_nan (binary_round_aux prec emax sx mx ex lx) = false.
Proof.
  intros Hm. unfold binary_round_aux.
  pose proof (shr_fexp_nonneg mx ex lx Hm) as H1.
  destruct (shr_fexp prec emax mx ex lx) as [mrs' e']. simpl in H1.
  pose proof (shr_fexp_nonneg _ e' loc_Exact
                (round_nearest_even_nonneg _ (loc_of_shr_record mrs') H1)) as H2.
  destruct (shr_fexp prec emax _ e' loc_Exact) as [mrs'' e'']. simpl in H2.
  destruct (shr_m mrs'') as [ |p|p]; [reflexivity| |lia].
  destruct (e'' <=? emax - prec); reflexivity.
Qed.

Lemma mul_not_nan (a b : float) :
  is_finite a = true -> is_finite b = true -> is_nan (mul a b) = false.
Proof.
  destruct a as [sa|sa| |sa ma ea], b as [sb|sb| |sb mb eb];
    try discriminate; intros _ _; try reflexivity.
  unfold mul, SFmul. apply binary_round_aux_not_nan. lia.
Qed.

Lemma to_int_ValueError (f : float) :
  to_int f = Raise ValueError <-> is_nan f = true.
Proof. destruct f; simpl; split; congruence. Qed.

Lemma mul_zero_finite (a b : float) :
  truthy a = false -> is_finite b = true -> to_int (mul a b) = Return 0.
Proof.
  intros Ha Hb. unfold truthy in Ha. apply negb_false_iff in Ha.
  destruct a as [sa|sa| |sa ma ea]; try destruct sa; try discriminate.
  all: destruct b as [sb|sb| |sb mb eb]; try discriminate; reflexivity.
Qed.

End Float64Facts.

(** ** [PyTorchDataset] *)

Module TorchDatasetSpec.

Import TorchDataset.

Local Open Scope py_scope.
Local Open Scope list_scope.

(** *** What a run of [shuffle_split] and of [_make_data_loaders] leaves *)

Section Run.

Context {T : Torch}.

(** The permutation drawn for a seed, the generator handed on to the
    loaders, and the default generator afterwards. *)
Definition drawn (length : nat) (seed : option Z) (s : State)
  : list nat * option Gen * Gen :=
  match seeded seed with
  | Some g => let '(p, g') := randperm length g in (p, Some g', default_generator s)
  | None => let '(p, g') := randperm length (default_generator s) in (p, None, g')
  end.

Definition with_indices (p : list nat) (a b c : Z) (test : float)
  (self : PyTorchDataset) : PyTorchDataset :=
  set_validation_type (Some "shuffle_split")
    (set_test_indices
       (if Float64.truthy test then Some (slice p (a + b) (a + b + c)) else None)
       (set_validation_indices (Some (slice p a (a + b)))
          (set_train_indices (Some (slice p 0 a)) self))).

Definition with_loaders (bs : pyval) (gen : option Gen) (self : PyTorchDataset)
  : PyTorchDataset :=
  set_test_loader (subset_loader self (_test_indices self) bs gen)
    (set_validation_loader (subset_loader self (_validation_indices self) bs gen)
       (set_train_loader (subset_loader self (_train_indices self) bs gen)
          (set_data_loader
             (if dataset_truthy (_dataset self)
              then Some (loader self Whole bs gen) else None)
             self))).

Definition refreshed (gen : option Gen) (self : PyTorchDataset) : PyTorchDataset :=
  if dict_truthy (_preprocessed self) then
    match _preprocessed self ≫= (fun d => d !! "batch_size") with
    | Some b => with_loaders b gen self
    | None => self
    end
  else self.

Lemma make_data_loaders_run (bs : pyval) (gen : option Gen) (s : State) :
  _make_data_loaders bs gen s
  = (Return tt, {| this := with_loaders bs gen (this s);
                   default_generator := default_generator s |}).
Proof. reflexivity. Qed.

(** On float arguments whose sum passes the test, [shuffle_split] fails
    where the first size cannot be computed, and otherwise completes. *)
Lemma shuffle_split_floats (train val test : float) (seed : option Z) (s : State)
  (d : TorchData) :
  _dataset (this s) = Some d ->
  Float64.ltb Float64.one (Float64.add (Float64.add train val) test) = false ->
  shuffle_split (VFloat train) (VFloat val) (VFloat test) seed s
  = match scaled train (data_len d), scaled val (data_len d),
          scaled test (data_len d) with
    | Return a, Return b, Return c =>
        let '(p, gen, dg) := drawn (data_len d) seed s in
        (Return tt, {| this := refreshed gen (with_indices p a b c test (this s));
                       default_generator := dg |})
    | Raise e, _, _ => (Raise e, s)
    | Return _, Raise e, _ => (Raise e, s)
    | Return _, Return _, Raise e => (Raise e, s)
    end.
Proof.
  intros Hd Hsum. unfold shuffle_split. rewrite Hsum.
  unfold bind at 1. unfold len_dataset, bind at 1, gets. rewrite Hd. unfold ret at 1.
  unfold bind at 1, lift.
  destruct (scaled train (data_len d)) as [a|e]; [|reflexivity].
  unfold bind at 1.
  destruct (scaled val (data_len d)) as [b|e]; [|reflexivity].
  unfold bind at 1.
  destruct (scaled test (data_len d)) as [c|e]; [|reflexivity].
  unfold bind at 1, draw_permutation, drawn.
  destruct (seeded seed) as [g|].
  - destruct (randperm (data_len d) g) as [p g']. unfold ret at 1.
    unfold refreshed, with_indices. cbn -[slice Float64.truthy with_loaders].
    destruct (dict_truthy (_preprocessed (this s))); [|reflexivity].
    destruct (_preprocessed (this s) ≫= _); reflexivity.
  - destruct (randperm (data_len d) (default_generator s)) as [p g'].
    unfold refreshed, with_indices. cbn -[slice Float64.truthy with_loaders].
    destruct (dict_truthy (_preprocessed (this s))); [|reflexivity].
    destruct (_preprocessed (this s) ≫= _); reflexivity.
Qed.

Lemma shuffle_split_no_dataset (train val test : float) (seed : option Z) (s : State) :
  _dataset (this s) = None ->
  Float64.ltb Float64.one (Float64.add (Float64.add train val) test) = false ->
  shuffle_split (VFloat train) (VFloat val) (VFloat test) seed s = (Raise TypeError, s).
Proof.
  intros Hd Hsum. unfold shuffle_split. rewrite Hsum.
  unfold bind at 1. unfold len_dataset, bind at 1, gets. rewrite Hd. reflexivity.
Qed.

Lemma shuffle_split_sum (train val test : float) (seed : option Z) (s : State) :
  Float64.ltb Float64.one (Float64.add (Float64.add train val) test) = true ->
  shuffle_split (VFloat train) (VFloat val) (VFloat test) seed s = (Raise ValueError, s).
Proof. intros Hsum. unfold shuffle_split. rewrite Hsum. reflexivity. Qed.

(** Refreshing the loaders touches neither the indices nor the
    validation type. *)
Lemma refreshed_fields (gen : option Gen) (self : PyTorchDataset) :
  _train_indices (refreshed gen self) = _train_indices self
  /\ _validation_indices (refreshed gen self) = _validation_indices self
  /\ _test_indices (refreshed gen self) = _test_indices self
  /\ _validation_type (refreshed gen self) = _validation_type self
  /\ _dataset (refreshed gen self) = _dataset self
  /\ _preprocessed (refreshed gen self) = _preprocessed self.
Proof.
  unfold refreshed. destruct (dict_truthy _); [|done].
  destruct (_ ≫= _); done.
Qed.

End Run.

(** *** Slices *)

Lemma slice_in_range {A} (l : list A) (a b : Z) :
  0 <= a -> a <= b -> b <= Z.of_nat (length l) ->
  slice l a b = take (Z.to_nat (b - a)) (drop (Z.to_nat a) l).
Proof.
  intros Ha Hab Hb. unfold slice, clip.
  destruct (a <? 0) eqn:Ea; [apply Z.ltb_lt in Ea; lia|].
  destruct (b <? 0) eqn:Eb; [apply Z.ltb_lt in Eb; lia|].
  rewrite !Z.min_l by lia. reflexivity.
Qed.

Lemma four_parts {A} (p : list A) (a b c : nat) :
  p = take a p ++ take b (drop a p) ++ take c (drop (a + b) p) ++ drop (a + b + c) p.
Proof.
  rewrite <- (take_drop a p) at 1. f_equal.
  rewrite <- (take_drop b (drop a p)) at 1. f_equal.
  rewrite drop_drop.
  rewrite <- (take_drop c (drop (a + b) p)) at 1. f_equal.
  rewrite drop_drop. reflexivity.
Qed.

(** The three index lists are consecutive slices of one permutation of
    [0, ..., n-1], of lengths [a], [b] and [c], sharing no index; the test
    list is [None] when there is no test share. *)
Definition consecutive_slices (n : nat) (a b c : Z) (has_test : bool)
  (self : PyTorchDataset) : Prop :=
  exists p train val test rest,
    p ≡ₚ seq 0 n
    /\ p = train ++ val ++ test ++ rest
    /\ Z.of_nat (length train) = a
    /\ Z.of_nat (length val) = b
    /\ Z.of_nat (length test) = c
    /\ NoDup (train ++ val ++ test)
    /\ _train_indices self = Some train
    /\ _validation_indices self = Some val
    /\ _test_indices self = (if has_test then Some test else None).

(** Consecutive slices share no index. *)
Lemma consecutive_slices_disjoint (n : nat) (a b c : Z) (has_test : bool)
  (self : PyTorchDataset) :
  consecutive_slices n a b c has_test self ->
  forall train val test,
    _train_indices self = Some train ->
    _validation_indices self = Some val ->
    _test_indices self = Some test ->
    forall i, (i ∈ train -> (i ∉ val) /\ (i ∉ test)) /\ (i ∈ val -> i ∉ test).
Proof.
  intros (p & tr & va & te & rest & _ & _ & _ & _ & _ & Hnd & Htr & Hva & Hte)
    train val test Etr Eva Ete i.
  rewrite Etr in Htr. rewrite Eva in Hva. rewrite Ete in Hte.
  injection Htr as <-. injection Hva as <-.
  destruct has_test; [|discriminate Hte]. injection Hte as <-.
  apply NoDup_app in Hnd as (_ & Hout & Hrest).
  apply NoDup_app in Hrest as (_ & Hmid & _).
  split.
  - intros Hi. specialize (Hout i Hi). rewrite elem_of_app in Hout. tauto.
  - intros Hi. exact (Hmid i Hi).
Qed.

Lemma slices_of_permutation (n : nat) (p : list nat) (a b c : Z) (has_test : bool)
  (self : PyTorchDataset) :
  p ≡ₚ seq 0 n ->
  0 <= a -> 0 <= b -> 0 <= c -> a + b + c <= Z.of_nat n ->
  _train_indices self = Some (slice p 0 a) ->
  _validation_indices self = Some (slice p a (a + b)) ->
  _test_indices self
  = (if has_test then Some (slice p (a + b) (a + b + c)) else None) ->
  consecutive_slices n a b c has_test self.
Proof.
  intros Hp Ha Hb Hc Hn Htr Hva Hte.
  assert (Hlen : length p = n) by (rewrite Hp; apply length_seq).
  rewrite !slice_in_range in Htr, Hva, Hte by lia.
  replace (a - 0) with a in Htr by lia.
  replace (a + b - a) with b in Hva by lia.
  replace (a + b + c - (a + b)) with c in Hte by lia.
  rewrite Z2Nat.inj_add in Hte by lia. simpl in Htr.
  exists p, (take (Z.to_nat a) p), (take (Z.to_nat b) (drop (Z.to_nat a) p)),
    (take (Z.to_nat c) (drop (Z.to_nat a + Z.to_nat b) p)),
    (drop (Z.to_nat a + Z.to_nat b + Z.to_nat c) p).
  split; [exact Hp|]. split; [apply four_parts|].
  rewrite !length_take, !length_drop.
  repeat split; try lia; try assumption.
  assert (Hnd : NoDup p) by (rewrite Hp; apply NoDup_seq).
  rewrite (four_parts p (Z.to_nat a) (Z.to_nat b) (Z.to_nat c)) in Hnd.
  rewrite !app_assoc in Hnd. apply NoDup_app in Hnd as [Hnd _].
  rewrite <- !app_assoc in Hnd. exact Hnd.
Qed.

(** *** The stand-in for torch obeys the law *)

Lemma sample_torch_laws : @TorchLaws sample_torch.
Proof.
  constructor. intros n g. simpl.
  rewrite Permutation_app_comm, take_drop. reflexivity.
Qed.

Lemma drawn_permutation {T : Torch} {L : TorchLaws} (n : nat) (seed : option Z)
  (s : State) :
  (drawn n seed s).1.1 ≡ₚ seq 0 n.
Proof.
  unfold drawn. destruct (seeded seed) as [g|].
  - pose proof (randperm_perm n g) as Hp.
    destruct (randperm n g) as [p g']. exact Hp.
  - pose proof (randperm_perm n (default_generator s)) as Hp.
    destruct (randperm n (default_generator s)) as [p g']. exact Hp.
Qed.

(** *** [shuffle_split]: when it raises *)

Definition all_floats (train_pct val_pct test_pct : pyval) : bool :=
  isinstance_float train_pct && isinstance_float val_pct && isinstance_float test_pct.

(** [train_pct + val_pct + test_pct > 1.0], on floats *)
Definition sum_exceeds_one (train_pct val_pct test_pct : pyval) : bool :=
  match train_pct, val_pct, test_pct with
  | VFloat a, VFloat b, VFloat c =>
      Float64.ltb Float64.one (Float64.add (Float64.add a b) c)
  | _, _, _ => false
  end.

(** A percentage that, if a float, is neither NaN nor infinite *)
Definition finite_pct (v : pyval) : bool :=
  match v with
  | VFloat f => Float64.is_finite f
  | _ => true
  end.

(** What a completed call has set *)
Definition split_assigned (test_pct : pyval) (self : PyTorchDataset) : Prop :=
  _validation_type self = Some "shuffle_split"
  /\ is_Some (_train_indices self)
  /\ is_Some (_validation_indices self)
  /\ (truthy test_pct = true -> is_Some (_test_indices self)).

(** The property as first stated *)
Definition raises_iff_bad_percentages {T : Torch}
  (train_pct val_pct test_pct : pyval) (seed : option Z) (s : State) : Prop :=
  let r := shuffle_split train_pct val_pct test_pct seed s in
  (r.1 = Raise ValueError <->
   all_floats train_pct val_pct test_pct = false
   \/ sum_exceeds_one train_pct val_pct test_pct = true)
  /\ (r.1 <> Raise ValueError -> split_assigned test_pct (this r.2)).

Lemma scaled_not_ValueError (f : float) (n : nat) :
  Float64.is_finite f = true -> scaled f n <> Raise ValueError.
Proof.
  intros Hf. unfold scaled, int_times.
  destruct (Float64.is_finite (Float64.of_int (Z.of_nat n))) eqn:Hl; [|discriminate].
  rewrite Float64Facts.to_int_ValueError, Float64Facts.mul_not_nan by assumption.
  discriminate.
Qed.

Lemma scaled_zero (f : float) (n : nat) (c : Z) :
  Float64.truthy f = false -> scaled f n = Return c -> c = 0.
Proof.
  unfold scaled, int_times. intros Hf.
  destruct (Float64.is_finite (Float64.of_int (Z.of_nat n))) eqn:Hl; [|discriminate].
  rewrite Float64Facts.mul_zero_finite by assumption. congruence.
Qed.

(** C5, as stated, fails: NaN is a float and no sum with it exceeds 1, yet
    [int(nan * length)] raises [ValueError]. *)
Lemma shuffle_split_nan_raises :
  ~ raises_iff_bad_percentages (T := sample_torch)
      (VFloat Float64.nan) (VFloat (Float64.dec 25 100)) (VFloat Float64.zero)
      None (loaded 8).
Proof.
  intros [[H _] _].
  assert (E : (shuffle_split (T := sample_torch) (VFloat Float64.nan)
                 (VFloat (Float64.dec 25 100)) (VFloat Float64.zero) None
                 (loaded 8)).1 = Raise ValueError) by (vm_compute; reflexivity).
  destruct (H E) as [E'|E']; vm_compute in E'; discriminate E'.
Qed.

(** An infinite percentage on an empty dataset does the same: the
    product [-inf * 0.0] is NaN. *)
Example shuffle_split_infinite_on_empty :
  (shuffle_split (T := sample_torch) (VFloat (S754_infinity true))
     (VFloat Float64.zero) (VFloat Float64.zero) None (loaded 0)).1
  = Raise ValueError.
Proof. vm_compute. reflexivity. Qed.

(** On a non-empty dataset it raises [OverflowError], and nothing has been
    assigned. *)
Example shuffle_split_infinite :
  shuffle_split (T := sample_torch) (VFloat (S754_infinity true))
    (VFloat Float64.zero) (VFloat Float64.zero) None (loaded 8)
  = (Raise OverflowError, loaded 8).
Proof. vm_compute. reflexivity. Qed.

(** The loaders that [shuffle_split] rebuilds, if any, are ones torch
    accepts: they are built from the recorded batch size. *)
Definition loaders_accepted (self : PyTorchDataset) : Prop :=
  forall m b, _preprocessed self = Some m -> m !! "batch_size" = Some b ->
    batch_size_accepted b = true /\ 0 <= _num_workers self.

(** C5, amended: for a defined dataset, percentage arguments that are
    neither NaN nor infinite, a seed that is [None] or in torch's 64-bit
    range, and a recorded batch size (if the dataset has been
    preprocessed) that torch's loaders accept, [shuffle_split] raises
    [ValueError] if and only if one of the three percentages is not a
    float or their sum is greater than 1; when the call completes, the
    validation type is 'shuffle_split' and the train, validation and (for
    a nonzero test percentage) test index lists are assigned. *)
Theorem shuffle_split_raises {T : Torch} (train_pct val_pct test_pct : pyval)
  (seed : option Z) (s : State) (d : TorchData) :
  _dataset (this s) = Some d ->
  finite_pct train_pct = true -> finite_pct val_pct = true ->
  finite_pct test_pct = true ->
  seed_accepted seed = true ->
  loaders_accepted (this s) ->
  let r := shuffle_split train_pct val_pct test_pct seed s in
  (r.1 = Raise ValueError <->
   all_floats train_pct val_pct test_pct = false
   \/ sum_exceeds_one train_pct val_pct test_pct = true)
  /\ (r.1 = Return tt -> split_assigned test_pct (this r.2)).
Proof.
  intros Hd Htr Hva Hte _ _ r. subst r.
  destruct train_pct as [ | | |train| | ], val_pct as [ | | |val| | ],
    test_pct as [ | | |test| | ];
    try (split; [split; [intros _; left; reflexivity | reflexivity] | discriminate]).
  simpl in Htr, Hva, Hte. unfold all_floats, sum_exceeds_one. simpl isinstance_float.
  simpl andb.
  destruct (Float64.ltb Float64.one (Float64.add (Float64.add train val) test))
    eqn:Hsum.
  - rewrite shuffle_split_sum by exact Hsum. simpl.
    split; [split; auto | discriminate].
  - rewrite (shuffle_split_floats train val test seed s d Hd Hsum).
    pose proof (scaled_not_ValueError train (data_len d) Htr) as Na.
    pose proof (scaled_not_ValueError val (data_len d) Hva) as Nb.
    pose proof (scaled_not_ValueError test (data_len d) Hte) as Nc.
    destruct (scaled train (data_len d)) as [a|ea];
      [|simpl; split; [split; [congruence | intros [|]; discriminate] | discriminate]].
    destruct (scaled val (data_len d)) as [b|eb];
      [|simpl; split; [split; [congruence | intros [|]; discriminate] | discriminate]].
    destruct (scaled test (data_len d)) as [c|ec];
      [|simpl; split; [split; [congruence | intros [|]; discriminate] | discriminate]].
    destruct (drawn (data_len d) seed s) as [[p gen] dg]. simpl fst. simpl snd.
    split; [split; [discriminate | intros [|]; discriminate]|].
    intros _. unfold split_assigned. cbn [this].
    destruct (refreshed_fields gen (with_indices p a b c test (this s)))
      as (-> & -> & -> & -> & _).
    unfold with_indices. cbn -[slice Float64.truthy].
    repeat split; eauto.
    unfold truthy. intros ->. eauto.
Qed.

Lemma shuffle_split_raises_witness :
  split_assigned (VFloat Float64.zero)
    (this (shuffle_split (T := sample_torch) (VFloat (Float64.dec 75 100))
             (VFloat (Float64.dec 25 100)) (VFloat Float64.zero) (Some 10)
             (loaded 8)).2).
Proof.
  apply (shuffle_split_raises (T := sample_torch) (VFloat (Float64.dec 75 100))
           (VFloat (Float64.dec 25 100)) (VFloat Float64.zero) (Some 10) (loaded 8)
           {| data_len := 8; transform := None |});
    try (vm_compute; reflexivity).
  intros m b Hm. discriminate Hm.
Defined.

(** *** [shuffle_split]: the index lists *)

(** The property as first stated: every completed call leaves consecutive
    slices of the sizes [int(pct * n)]. *)
Definition slices_after_every_call {T : Torch} (train val test : float)
  (seed : option Z) (s : State) : Prop :=
  forall (d : TorchData) (s' : State) (a b c : Z),
    _dataset (this s) = Some d ->
    shuffle_split (VFloat train) (VFloat val) (VFloat test) seed s = (Return tt, s') ->
    scaled train (data_len d) = Return a ->
    scaled val (data_len d) = Return b ->
    scaled test (data_len d) = Return c ->
    consecutive_slices (data_len d) a b c (Float64.truthy test) (this s').

(** C6, as stated, fails: a negative percentage passes the checks, and
    [dataset_indices[:-4]] holds four indices, not [int(-0.5 * 8) = -4]. *)
Lemma shuffle_split_negative_percentage :
  ~ slices_after_every_call (T := sample_torch)
      (Float64.dec (-5) 10) (Float64.dec 25 100) Float64.zero None (loaded 8).
Proof.
  intros H.
  specialize (H {| data_len := 8; transform := None |}
                (shuffle_split (T := sample_torch) (VFloat (Float64.dec (-5) 10))
                   (VFloat (Float64.dec 25 100)) (VFloat Float64.zero) None
                   (loaded 8)).2
                (-4) 2 0).
  destruct H as (p & train & val & test & rest & _ & _ & Hlen & _);
    try (vm_compute; reflexivity).
  lia.
Qed.

(** With percentages of mixed sign the slices can overlap: for -0.25, 0.5
    and 0.75 on eight examples, train is [p[:-2]] and test is [p[2:8]]. *)
Example shuffle_split_overlap :
  let s' := (shuffle_split (T := sample_torch) (VFloat (Float64.dec (-25) 100))
               (VFloat (Float64.dec 5 10)) (VFloat (Float64.dec 75 100)) None
               (loaded 8)).2 in
  _train_indices (this s') = Some [0; 1; 2; 3; 4; 5]%nat
  /\ _validation_indices (this s') = Some []
  /\ _test_indices (this s') = Some [2; 3; 4; 5; 6; 7]%nat.
Proof. vm_compute. repeat split. Qed.

(** The test on the float sum does not bound the sizes: 0.5 + 0.5 + 2^-54
    rounds to 1.0, and on 2^54 examples the three sizes add up to one
    more than the length. *)
Example sizes_can_exceed_length :
  let n := 2 ^ 54 in
  let half := Float64.dec 1 2 in
  let tiny := Float64.dec 1 n in
  Float64.ltb Float64.one (Float64.add (Float64.add half half) tiny) = false
  /\ int_times half n = Return (2 ^ 53)
  /\ int_times tiny n = Return 1.
Proof. vm_compute. repeat split. Qed.

(** C6, amended: after a successful call on a dataset of length n, if the
    three sizes int(train_pct * n), int(val_pct * n) and int(test_pct * n)
    are non-negative and sum to at most n, then the train, validation and
    test index lists are pairwise-disjoint consecutive slices of a single
    permutation of 0, ..., n-1, with exactly that many indices each, and
    the test index list is [None] whenever test_pct equals 0. *)
Theorem shuffle_split_slices {T : Torch} {L : TorchLaws} (train val test : float)
  (seed : option Z) (s s' : State) (d : TorchData) (a b c : Z) :
  _dataset (this s) = Some d ->
  shuffle_split (VFloat train) (VFloat val) (VFloat test) seed s = (Return tt, s') ->
  scaled train (data_len d) = Return a ->
  scaled val (data_len d) = Return b ->
  scaled test (data_len d) = Return c ->
  0 <= a -> 0 <= b -> 0 <= c -> a + b + c <= Z.of_nat (data_len d) ->
  consecutive_slices (data_len d) a b c (Float64.truthy test) (this s')
  /\ (Float64.eqb test Float64.zero = true -> _test_indices (this s') = None).
Proof.
  intros Hd Hrun Ha Hb Hc Na Nb Nc Hn.
  destruct (Float64.ltb Float64.one (Float64.add (Float64.add train val) test))
    eqn:Hsum.
  { rewrite shuffle_split_sum in Hrun by exact Hsum. discriminate Hrun. }
  rewrite (shuffle_split_floats train val test seed s d Hd Hsum), Ha, Hb, Hc in Hrun.
  pose proof (drawn_permutation (data_len d) seed s) as Hp.
  destruct (drawn (data_len d) seed s) as [[p gen] dg]. simpl in Hp.
  injection Hrun as <-. cbn [this].
  destruct (refreshed_fields gen (with_indices p a b c test (this s)))
    as (Etr & Eva & Ete & _).
  split.
  - apply (slices_of_permutation (data_len d) p); try assumption;
      rewrite ?Etr, ?Eva, ?Ete; reflexivity.
  - intros Hz. rewrite Ete. unfold with_indices. cbn -[slice Float64.truthy].
    unfold Float64.truthy. rewrite Hz. reflexivity.
Qed.

Lemma shuffle_split_slices_witness :
  consecutive_slices 8 6 2 0 false
    (this (shuffle_split (T := sample_torch) (VFloat (Float64.dec 75 100))
             (VFloat (Float64.dec 25 100)) (VFloat Float64.zero) (Some 10)
             (loaded 8)).2).
Proof.
  apply (shuffle_split_slices (T := sample_torch) (L := sample_torch_laws)
           (Float64.dec 75 100) (Float64.dec 25 100) Float64.zero (Some 10)
           (loaded 8) _ {| data_len := 8; transform := None |} 6 2 0);
    try (vm_compute; reflexivity); vm_compute; discriminate.
Defined.

(** *** [shuffle_split]: the seed *)

Definition same_length (s1 s2 : State) : Prop :=
  data_len <$> _dataset (this s1) = data_len <$> _dataset (this s2).

Definition same_indices (s1 s2 : State) : Prop :=
  _train_indices (this s1) = _train_indices (this s2)
  /\ _validation_indices (this s1) = _validation_indices (this s2)
  /\ _test_indices (this s1) = _test_indices (this s2).

Lemma drawn_seeded {T : Torch} (n : nat) (z : Z) (s1 s2 : State) :
  z <> 0 -> (drawn n (Some z) s1).1 = (drawn n (Some z) s2).1.
Proof.
  intros Hz. unfold drawn, seeded.
  destruct (z =? 0) eqn:E; [apply Z.eqb_eq in E; contradiction|].
  destruct (randperm n (manual_seed z)) as [p g']. reflexivity.
Qed.

Lemma shuffle_split_seed_floats {T : Torch} (train val test : float) (z : Z)
  (s1 s2 : State) :
  z <> 0 ->
  same_length s1 s2 ->
  let r1 := shuffle_split (VFloat train) (VFloat val) (VFloat test) (Some z) s1 in
  let r2 := shuffle_split (VFloat train) (VFloat val) (VFloat test) (Some z) s2 in
  r1.1 = r2.1 /\ (r1.1 = Return tt -> same_indices r1.2 r2.2).
Proof.
  intros Hz Hlen r1 r2. subst r1 r2.
  destruct (Float64.ltb Float64.one (Float64.add (Float64.add train val) test))
    eqn:Hsum.
  { rewrite !shuffle_split_sum by exact Hsum. split; [reflexivity | discriminate]. }
  unfold same_length in Hlen.
  destruct (_dataset (this s1)) as [d1|] eqn:Hd1,
           (_dataset (this s2)) as [d2|] eqn:Hd2; try discriminate Hlen.
  2: { rewrite !shuffle_split_no_dataset by assumption.
       split; [reflexivity | discriminate]. }
  injection Hlen as Hlen.
  rewrite (shuffle_split_floats train val test (Some z) s1 d1 Hd1 Hsum),
          (shuffle_split_floats train val test (Some z) s2 d2 Hd2 Hsum).
  rewrite <- Hlen.
  destruct (scaled train (data_len d1)) as [a|e];
    [|split; [reflexivity | discriminate]].
  destruct (scaled val (data_len d1)) as [b|e];
    [|split; [reflexivity | discriminate]].
  destruct (scaled test (data_len d1)) as [c|e];
    [|split; [reflexivity | discriminate]].
  pose proof (drawn_seeded (data_len d1) z s1 s2 Hz) as Hp.
  destruct (drawn (data_len d1) (Some z) s1) as [[p1 g1] dg1],
           (drawn (data_len d1) (Some z) s2) as [[p2 g2] dg2].
  simpl in Hp. injection Hp as -> ->.
  split; [reflexivity|].
  intros _. unfold same_indices. cbn [snd this].
  destruct (refreshed_fields g2 (with_indices p2 a b c test (this s1)))
    as (-> & -> & -> & _).
  destruct (refreshed_fields g2 (with_indices p2 a b c test (this s2)))
    as (-> & -> & -> & _).
  repeat split.
Qed.

(** C7: with a nonzero integer seed, two calls with the same percentages
    on datasets of equal length end alike and, when they complete, leave
    the same train, validation and test index lists, whatever the state
    of the default generator; with seed 0 no generator is seeded and the
    call is the call with no seed. *)
Theorem shuffle_split_seed {T : Torch} (train_pct val_pct test_pct : pyval)
  (z : Z) (s1 s2 : State) :
  z <> 0 ->
  same_length s1 s2 ->
  let r1 := shuffle_split train_pct val_pct test_pct (Some z) s1 in
  let r2 := shuffle_split train_pct val_pct test_pct (Some z) s2 in
  r1.1 = r2.1
  /\ (r1.1 = Return tt -> same_indices r1.2 r2.2)
  /\ (seeded (Some 0) = None /\ seeded None = None
      /\ shuffle_split train_pct val_pct test_pct (Some 0) s1
         = shuffle_split train_pct val_pct test_pct None s1).
Proof.
  intros Hz Hlen r1 r2. subst r1 r2.
  rewrite (and_assoc _ _ _). split; [|repeat split].
  destruct train_pct as [ | | |train| | ], val_pct as [ | | |val| | ],
    test_pct as [ | | |test| | ];
    try (split; [reflexivity | discriminate]).
  exact (shuffle_split_seed_floats train val test z s1 s2 Hz Hlen).
Qed.

Lemma shuffle_split_seed_witness :
  same_indices
    (shuffle_split (T := sample_torch) (VFloat (Float64.dec 75 100))
       (VFloat (Float64.dec 25 100)) (VFloat Float64.zero) (Some 10) (loaded 8)).2
    (shuffle_split (T := sample_torch) (VFloat (Float64.dec 75 100))
       (VFloat (Float64.dec 25 100)) (VFloat Float64.zero) (Some 10)
       {| this := this (loaded 8); default_generator := 5 |}).2.
Proof.
  apply (shuffle_split_seed (T := sample_torch) (VFloat (Float64.dec 75 100))
           (VFloat (Float64.dec 25 100)) (VFloat Float64.zero) 10 (loaded 8)
           {| this := this (loaded 8); default_generator := 5 |}).
  - discriminate.
  - reflexivity.
  - vm_compute. reflexivity.
Defined.

(** *** [get_batch] *)


Section GetBatch.

Context {T : Torch}.







End GetBatch.




(** *** [preprocess] *)

(** "A positive integer", integers being the instances of [int] *)
Definition positive_int (v : pyval) : bool :=
  match v with
  | VInt z => 1 <=? z
  | VBool b => b
  | _ => false
  end.

Definition valid_image_size (v : pyval) : bool :=
  eq_str v "variable" || positive_int v.

(** The record of a completed call *)
Definition preprocessing_record (image_size batch_size : pyval) : gmap string pyval :=
  <["image_size" := image_size]> (<["batch_size" := batch_size]> ∅).

Definition preprocess_accepts (self : PyTorchDataset) (image_size batch_size : pyval)
  : bool :=
  dataset_truthy (_dataset self) && negb (dict_truthy (_preprocessed self))
  && positive_int batch_size && valid_image_size image_size.

Definition preprocessed_state (image_size batch_size : pyval) (s : State) : State :=
  {| this := set_preprocessed (Some (preprocessing_record image_size batch_size))
               (with_loaders batch_size None
                  (set_transform (get_transform image_size) (this s)));
     default_generator := default_generator s |}.

Lemma batch_size_check (b : pyval) :
  (if negb (isinstance_int b) then Return true else lt_num b (NInt 1))
  = Return (negb (positive_int b)).
Proof.
  destruct b as [ |[| ]|[ |[q|q| ]|q]|f|x|l]; reflexivity.
Qed.

Lemma image_size_check (i : pyval) :
  (if negb (eq_str i "variable")
   then (if isinstance_int i then negb <$> ge_num i (NInt 1) else Return true)
   else Return false)
  = Return (negb (valid_image_size i)).
Proof.
  unfold valid_image_size.
  destruct i as [ |[| ]|[ |[q|q| ]|q]|f|x|l]; try reflexivity.
  simpl. destruct (String.eqb x "variable"); reflexivity.
Qed.

Lemma preprocess_run (image_size batch_size : pyval) (s : State) :
  preprocess image_size batch_size s
  = if preprocess_accepts (this s) image_size batch_size
    then (Return tt, preprocessed_state image_size batch_size s)
    else (Raise ValueError, s).
Proof.
  unfold preprocess, preprocess_accepts. unfold bind at 1. unfold gets.
  destruct (dataset_truthy (_dataset (this s))); [|reflexivity].
  destruct (dict_truthy (_preprocessed (this s))); [reflexivity|].
  unfold bind at 1. unfold lift at 1. rewrite batch_size_check.
  destruct (positive_int batch_size); [|reflexivity].
  unfold bind at 1. unfold lift at 1. rewrite image_size_check.
  destruct (valid_image_size image_size); reflexivity.
Qed.

Lemma preprocessing_record_truthy (image_size batch_size : pyval) :
  dict_truthy (Some (preprocessing_record image_size batch_size)) = true.
Proof.
  unfold dict_truthy, preprocessing_record.
  rewrite bool_decide_eq_false_2; [reflexivity|]. apply insert_non_empty.
Qed.


End TorchDatasetSpec.

(** * Further properties *)

(** ** [get_inc_config] on arbitrary arguments *)

Module IncExtra.

Import Inc IncSpec.

(** What a check makes of one argument: it lets it through, or it stops
    the call with an exception. *)
Inductive verdict : Set :=
| Accepted
| Rejected (e : exn).

(** An argument that is not accepted is refused with [ValueError] when it
    is a number or truthy, and with [TypeError] otherwise, that is, when
    it is [None], the empty string or the empty list. *)
Definition judge (accepted : pyval -> bool) (v : pyval) : verdict :=
  if accepted v then Accepted
  else if orderable v then Rejected ValueError
  else Rejected TypeError.

Definition check_outcome (j : verdict) : outcome bool :=
  match j with
  | Accepted => Return false
  | Rejected ValueError => Return true
  | Rejected e => Raise e
  end.

Lemma accuracy_judged (a : pyval) :
  rejects a isinstance_float (negb <$> in_unit_interval a)
  = check_outcome (judge accuracy_accepted a).
Proof.
  unfold judge. destruct (orderable a) eqn:Ho.
  - rewrite (accuracy_check a Ho). destruct (accuracy_accepted a); reflexivity.
  - destruct a as [ |b|z|f|[|c x]|[|y l]]; try discriminate Ho; reflexivity.
Qed.

Lemma timeout_judged (t : pyval) :
  rejects t isinstance_int (lt_num t (NInt 0))
  = check_outcome (judge timeout_accepted t).
Proof.
  unfold judge. destruct (orderable t) eqn:Ho.
  - rewrite (timeout_check t Ho). destruct (timeout_accepted t); reflexivity.
  - destruct t as [ |b|z|f|[|c x]|[|y l]]; try discriminate Ho; reflexivity.
Qed.

Lemma max_trials_judged (m : pyval) :
  rejects m isinstance_int (lt_num m (NInt 1))
  = check_outcome (judge max_trials_accepted m).
Proof.
  unfold judge. destruct (orderable m) eqn:Ho.
  - rewrite (max_trials_check m Ho). destruct (max_trials_accepted m); reflexivity.
  - destruct m as [ |b|z|f|[|c x]|[|y l]]; try discriminate Ho; reflexivity.
Qed.

(** The three checks run in order, and the first argument that is not
    accepted decides the exception; when all are accepted the library's
    constructors are called. *)
Lemma get_inc_config_judged {N : NeuralCompressor} (a t m : pyval) :
  get_inc_config a t m
  = match judge accuracy_accepted a with
    | Rejected e => Raise e
    | Accepted =>
        match judge timeout_accepted t with
        | Rejected e => Raise e
        | Accepted =>
            match judge max_trials_accepted m with
            | Rejected e => Raise e
            | Accepted => construct a t m
            end
        end
    end.
Proof.
  unfold get_inc_config.
  rewrite accuracy_judged, timeout_judged, max_trials_judged.
  unfold judge.
  destruct (accuracy_accepted a); [|destruct (orderable a); reflexivity].
  destruct (timeout_accepted t); [|destruct (orderable t); reflexivity].
  destruct (max_trials_accepted m); [|destruct (orderable m); reflexivity].
  reflexivity.
Qed.

Lemma accepted_orderable (a t m : pyval) :
  (accuracy_accepted a = true -> orderable a = true)
  /\ (timeout_accepted t = true -> orderable t = true)
  /\ (max_trials_accepted m = true -> orderable m = true).
Proof.
  repeat split.
  - destruct a as [ |b|z|f|x|l]; try discriminate; reflexivity.
  - destruct t as [ |b|z|f|x|l]; try discriminate; reflexivity.
  - destruct m as [ |b|z|f|x|l]; try discriminate; reflexivity.
Qed.

(** X1: whatever the three arguments are, [get_inc_config] returns a
    configuration exactly when the accuracy criterion is a float in
    [0.0, 1.0] or the integer zero, the timeout is an integer at least 0
    or the float zero, max_trials is an integer at least 1, and the
    library's constructors then return; the configuration returned is the
    one holding the three arguments, with approach static and device
    cpu. *)
Theorem get_inc_config_returns_iff {N : NeuralCompressor} (a t m : pyval)
  (c : PostTrainingQuantConfig) :
  (get_inc_config a t m = Return c
   <-> accuracy_accepted a = true /\ timeout_accepted t = true
       /\ max_trials_accepted m = true /\ construct a t m = Return c)
  /\ (get_inc_config a t m = Return c -> c = config a t m).
Proof.
  rewrite get_inc_config_judged. unfold judge.
  destruct (accuracy_accepted a), (timeout_accepted t), (max_trials_accepted m),
    (orderable a), (orderable t), (orderable m); simpl;
    (split;
     [split; [intros H; try discriminate H; auto
             | intros (Ha & Ht & Hm & H); try discriminate; exact H]
     | intros H; try discriminate H; apply construct_Return, H]).
Qed.

(** X2: an exception of [get_inc_config] is a [ValueError] or a
    [TypeError] of its own checks, which does not depend on the library,
    or it is raised by the library's constructors after all three checks
    have passed.  The checks raise [TypeError] exactly when the first
    argument that is not accepted (in the order accuracy criterion,
    timeout, max_trials) is neither a number nor truthy: [None], an empty
    string or an empty list. *)
Theorem get_inc_config_TypeError_iff {N : NeuralCompressor} (a t m : pyval) :
  (get_inc_config a t m = Raise TypeError
   <-> orderable a = false
       \/ (accuracy_accepted a = true /\ orderable t = false)
       \/ (accuracy_accepted a = true /\ timeout_accepted t = true
           /\ orderable m = false)
       \/ (accuracy_accepted a = true /\ timeout_accepted t = true
           /\ max_trials_accepted m = true /\ construct a t m = Raise TypeError))
  /\ (forall e, get_inc_config a t m = Raise e ->
      (accuracy_accepted a = true /\ timeout_accepted t = true
       /\ max_trials_accepted m = true /\ construct a t m = Raise e)
      \/ ((e = ValueError \/ e = TypeError)
          /\ forall N' : NeuralCompressor,
               get_inc_config (N := N') a t m = Raise e)).
Proof.
  split.
  - rewrite get_inc_config_judged. unfold judge.
    destruct (accepted_orderable a t m) as (Ha & Ht & Hm).
    destruct (accuracy_accepted a), (timeout_accepted t), (max_trials_accepted m),
      (orderable a), (orderable t), (orderable m);
      try (discriminate (Ha eq_refl)); try (discriminate (Ht eq_refl));
      try (discriminate (Hm eq_refl)); simpl;
      (split; [intros H; try discriminate H; auto 10
              | intros [H|[[H1 H2]|[(H1 & H2 & H3)|(H1 & H2 & H3 & H4)]]];
                try discriminate; first [reflexivity | assumption]]).
  - intros e. rewrite get_inc_config_judged.
    assert (Hall : forall N' : NeuralCompressor,
               get_inc_config (N := N') a t m
               = match judge accuracy_accepted a with
                 | Rejected e => Raise e
                 | Accepted =>
                     match judge timeout_accepted t with
                     | Rejected e => Raise e
                     | Accepted =>
                         match judge max_trials_accepted m with
                         | Rejected e => Raise e
                         | Accepted => construct (N := N') a t m
                         end
                     end
                 end)
      by (intros N'; apply get_inc_config_judged).
    unfold judge in *.
    destruct (accuracy_accepted a), (timeout_accepted t), (max_trials_accepted m),
      (orderable a), (orderable t), (orderable m); simpl in *;
      intros H; try (left; repeat split; exact H);
      right; injection H as <-; (split; [auto | exact Hall]).
Qed.

End IncExtra.

(** ** Downloading and extracting *)

Module DownloaderExtra.

Import Downloader DownloaderSpec.

Local Open Scope py_scope.
Local Open Scope list_scope.

(** What [download] lists for the extracted top-level members. *)
Definition listing (dir : string) (contents : list string) : outcome Downloaded :=
  match contents with
  | [] => Raise IndexError
  | [c] => Return (Path (join dir c))
  | _ => Return (Paths (join dir <$> contents))
  end.

(** Every path in a result is absolute. *)
Definition all_absolute (r : Downloaded) : Prop :=
  match r with
  | Dataset _ => True
  | Path p => isabs p = true
  | Paths ps => Forall (fun p => isabs p = true) ps
  end.

(** The world after [extractall]. *)
Definition unpacked (names : list string) (dir : string) (w : World) : World :=
  {| dirs := dirs w;
     files := foldr (fun n fs => <[join dir n := PlainFile]> fs) (files w) names;
     web := web w; environ := environ w; sdk_log := sdk_log w |}.

(** The world after the destination directory has been made sure of. *)
Definition with_dir (dir : string) (w : World) : World :=
  if bool_decide (dir ∈ dirs w) then w
  else {| dirs := {[dir]} ∪ dirs w; files := files w; web := web w;
          environ := environ w; sdk_log := sdk_log w |}.

Lemma top_level_empty (names : list string) : top_level names = [] <-> names = [].
Proof.
  unfold top_level. split.
  - intros H. apply elements_empty_inv in H.
    destruct names as [|n ns]; [reflexivity|]. exfalso.
    assert (first_component n ∈ (∅ : gset string)) as Hin; [|set_solver].
    rewrite <- H. set_solver.
  - intros ->. reflexivity.
Qed.

Lemma extracted_listing (self : DataDownloader) (contents : list string) (w : World) :
  extracted self contents w = (listing (_dataset_dir self) contents, w).
Proof.
  destruct contents as [|c [|c' cs]]; try reflexivity.
  apply extracted_many. simpl. lia.
Qed.

(** *** [download_file] *)

Lemma download_file_run (url dir : string) (w : World) :
  download_file url dir w
  = match web w !! url with
    | None => (Raise URLError, with_dir dir w)
    | Some c =>
        if bool_decide (join dir (basename url) ∈ dirs (with_dir dir w))
        then (Raise IsADirectoryError, with_dir dir w)
        else (Return (join dir (basename url)),
              {| dirs := dirs (with_dir dir w);
                 files := <[join dir (basename url) := c]> (files w);
                 web := web w; environ := environ w; sdk_log := sdk_log w |})
    end.
Proof.
  cbv [download_file with_dir bind isdir gets makedirs modify ret urlopen
         store write_file raise].
  case_bool_decide; cbn [dirs files web environ sdk_log];
    destruct (web w !! url); try reflexivity;
    cbn [dirs files web environ sdk_log];
    destruct (bool_decide (join dir (basename url) ∈ _)); reflexivity.
Qed.

(** *** [extract_tar_file] and [extract_zip_file] *)

Lemma extract_tar_file_run (p dir : string) (w : World) :
  extract_tar_file p dir w
  = match files w !! p with
    | Some (TarArchive names) =>
        (Return (top_level names), unpacked names dir (with_dir dir w))
    | Some _ => (Raise ReadError, with_dir dir w)
    | None => (Raise FileNotFoundError, with_dir dir w)
    end.
Proof.
  cbv [extract_tar_file with_dir bind isdir gets get makedirs modify ret raise
         extractall unpacked].
  case_bool_decide; cbn [dirs files web environ sdk_log];
    destruct (files w !! p) as [[names|names| ]|]; reflexivity.
Qed.

Lemma extract_zip_file_run (p dir : string) (w : World) :
  extract_zip_file p dir w
  = match files w !! p with
    | Some (ZipArchive names) =>
        (Return (top_level names), unpacked names dir (with_dir dir w))
    | Some _ => (Raise ReadError, with_dir dir w)
    | None => (Raise FileNotFoundError, with_dir dir w)
    end.
Proof.
  cbv [extract_zip_file with_dir bind isdir gets get makedirs modify ret raise
         extractall unpacked].
  case_bool_decide; cbn [dirs files web environ sdk_log];
    destruct (files w !! p) as [[names|names| ]|]; reflexivity.
Qed.

(** *** The generic branch of [download] *)

Lemma unpack_run (self : DataDownloader) (p : string) (w : World) :
  (unpack self p w).1
  = match files w !! p with
    | None => Raise FileNotFoundError
    | Some PlainFile => Return (Path p)
    | Some (TarArchive names) | Some (ZipArchive names) =>
        listing (_dataset_dir self) (top_level names)
    end.
Proof.
  unfold unpack, bind at 1, isfile, gets.
  destruct (files w !! p) as [[names|names| ]|] eqn:Hp; try reflexivity.
  - unfold bind at 1, is_tarfile, gets. rewrite Hp.
    unfold bind. rewrite extract_tar_file_run, Hp, extracted_listing. reflexivity.
  - unfold bind at 1, is_tarfile, gets. rewrite Hp.
    unfold bind at 1, is_zipfile, gets. rewrite Hp.
    unfold bind. rewrite extract_zip_file_run, Hp, extracted_listing. reflexivity.
  - unfold bind at 1, is_tarfile, gets. rewrite Hp.
    unfold bind at 1, is_zipfile, gets. rewrite Hp. reflexivity.
Qed.

(** X8: after the file has been downloaded, an archive makes the generic
    branch raise [IndexError] exactly when it has no members: the list of
    top-level contents is then empty and its first element is taken. *)
Theorem unpack_empty_archive (self : DataDownloader) (p : string)
  (names : list string) (w : World) :
  files w !! p = Some (TarArchive names) \/ files w !! p = Some (ZipArchive names) ->
  (unpack self p w).1 = Raise IndexError <-> names = [].
Proof.
  intros Hp. rewrite unpack_run.
  assert (E : match files w !! p with
              | None => Raise FileNotFoundError
              | Some PlainFile => Return (Path p)
              | Some (TarArchive names) | Some (ZipArchive names) =>
                  listing (_dataset_dir self) (top_level names)
              end = listing (_dataset_dir self) (top_level names))
    by (destruct Hp as [-> | ->]; reflexivity).
  rewrite E. rewrite <- top_level_empty.
  destruct (top_level names) as [|c [|c' cs]]; simpl; split; congruence.
Qed.

Lemma unpack_empty_archive_witness :
  (unpack flowers "data/empty.tar"
     {| dirs := ∅; files := {[ "data/empty.tar" := TarArchive [] ]};
        web := ∅; environ := ∅; sdk_log := [] |}).1
  = Raise IndexError.
Proof.
  apply (unpack_empty_archive flowers "data/empty.tar" []
           {| dirs := ∅; files := {[ "data/empty.tar" := TarArchive [] ]};
              web := ∅; environ := ∅; sdk_log := [] |}).
  - left. vm_compute. reflexivity.
  - reflexivity.
Defined.

Lemma listing_absolute (dir : string) (contents : list string) (r : Downloaded) :
  isabs dir = true -> listing dir contents = Return r -> all_absolute r.
Proof.
  intros Hd. destruct contents as [|c [|c' cs]]; simpl; intros [= <-]; simpl.
  - apply join_isabs, Hd.
  - repeat constructor; try (apply join_isabs, Hd).
    apply Forall_fmap, Forall_forall. intros x _. apply join_isabs, Hd.
Qed.

(** X10: when the dataset directory of a generic downloader is an
    absolute path, every path that [download] returns is absolute, be it
    the downloaded file, the single extracted member or the list of
    extracted members. *)
Theorem download_generic_absolute (self : DataDownloader) {E : Externals}
  (split : pyval) (w : World) (r : Downloaded) :
  _type self = GENERIC ->
  isabs (_dataset_dir self) = true ->
  (download self split w).1 = Return r ->
  all_absolute r.
Proof.
  intros Hty Habs. unfold download. rewrite Hty.
  destruct (_url self) as [url|]; [|discriminate].
  unfold bind. rewrite download_file_run.
  destruct (web w !! url) as [c|]; [|discriminate].
  destruct (bool_decide _); [discriminate|].
  match goal with
  | |- (unpack self ?p ?w1).1 = _ -> _ =>
      rewrite (surjective_pairing (unpack self p w1)) at 1;
      cbn [fst]; rewrite (unpack_run self p w1)
  end.
  cbn [files]. rewrite lookup_insert_eq.
  destruct c as [names|names| ].
  - apply listing_absolute, Habs.
  - apply listing_absolute, Habs.
  - intros [= <-]. simpl. apply join_isabs, Habs.
Qed.

Lemma download_generic_absolute_witness :
  all_absolute (Paths ["/data/a"; "/data/b"]).
Proof.
  apply (download_generic_absolute
           {| _dataset_name := "flowers"; _dataset_dir := "/data"; _type := GENERIC;
              _url := Some "http://host/flowers.tgz"; _args := ∅ |}
           (E := sample_externals) (VStr "train") sample_world).
  - reflexivity.
  - reflexivity.
  - vm_compute. reflexivity.
Defined.

End DownloaderExtra.

(** ** Splitting, loaders and preprocessing *)

Module TorchDatasetExtra.

Import TorchDataset TorchDatasetSpec.

Local Open Scope py_scope.
Local Open Scope list_scope.

Section Split.

Context {T : Torch}.

(** The state a completed [shuffle_split] leaves, for sizes [a], [b], [c]
    on a dataset of [n] examples. *)
Definition split_state (test : float) (a b c : Z) (n : nat) (seed : option Z)
  (s : State) : State :=
  {| this := refreshed (drawn n seed s).1.2
               (with_indices (drawn n seed s).1.1 a b c test (this s));
     default_generator := (drawn n seed s).2 |}.

(** A call either raises and leaves the state as it was, or it had float
    arguments, a dataset and three computable sizes, and completes. *)
Lemma shuffle_split_cases (train_pct val_pct test_pct : pyval) (seed : option Z)
  (s : State) :
  (exists e, shuffle_split train_pct val_pct test_pct seed s = (Raise e, s))
  \/ (exists train val test d a b c,
        train_pct = VFloat train /\ val_pct = VFloat val /\ test_pct = VFloat test
        /\ _dataset (this s) = Some d
        /\ scaled train (data_len d) = Return a
        /\ scaled val (data_len d) = Return b
        /\ scaled test (data_len d) = Return c
        /\ shuffle_split train_pct val_pct test_pct seed s
           = (Return tt, split_state test a b c (data_len d) seed s)).
Proof.
  destruct train_pct as [ | | |train| | ], val_pct as [ | | |val| | ],
    test_pct as [ | | |test| | ];
    try (left; exists ValueError; reflexivity).
  destruct (Float64.ltb Float64.one (Float64.add (Float64.add train val) test))
    eqn:Hsum.
  { left. exists ValueError. apply shuffle_split_sum, Hsum. }
  destruct (_dataset (this s)) as [d|] eqn:Hd.
  2: { left. exists TypeError. apply shuffle_split_no_dataset; assumption. }
  rewrite (shuffle_split_floats train val test seed s d Hd Hsum).
  destruct (scaled train (data_len d)) as [a|e] eqn:Ha; [|left; eauto].
  destruct (scaled val (data_len d)) as [b|e] eqn:Hb; [|left; eauto].
  destruct (scaled test (data_len d)) as [c|e] eqn:Hc; [|left; eauto].
  right. exists train, val, test, d, a, b, c.
  repeat (split; [reflexivity || assumption|]).
  unfold split_state. destruct (drawn (data_len d) seed s) as [[p gen] dg].
  reflexivity.
Qed.

(** What refreshing the loaders leaves alone. *)
Lemma refreshed_frame (gen : option Gen) (self : PyTorchDataset) :
  _train_subset (refreshed gen self) = _train_subset self
  /\ _validation_subset (refreshed gen self) = _validation_subset self
  /\ _test_subset (refreshed gen self) = _test_subset self
  /\ _shuffle (refreshed gen self) = _shuffle self
  /\ _num_workers (refreshed gen self) = _num_workers self.
Proof.
  unfold refreshed. destruct (dict_truthy _); [|done].
  destruct (_ ≫= _); done.
Qed.

(** X11: a call to [shuffle_split] that raises, for whatever reason, has
    changed nothing: the index lists, the validation type, the loaders
    and the default generator are as before the call. *)
Theorem shuffle_split_raise_unchanged (train_pct val_pct test_pct : pyval)
  (seed : option Z) (s : State) :
  forall e, (shuffle_split train_pct val_pct test_pct seed s).1 = Raise e ->
            (shuffle_split train_pct val_pct test_pct seed s).2 = s.
Proof.
  intros e He.
  destruct (shuffle_split_cases train_pct val_pct test_pct seed s)
    as [[e' Hr]|(tr & va & te & d & a & b & c & _ & _ & _ & _ & _ & _ & _ & Hr)];
    rewrite Hr in *; [reflexivity | discriminate He].
Qed.

Lemma slice_sublist {A} (l : list A) (a b : Z) : slice l a b `sublist_of` l.
Proof.
  unfold slice. etransitivity; [apply sublist_take | apply sublist_drop].
Qed.

Lemma slice_of_permutation (n : nat) (p : list nat) (a b : Z) :
  p ≡ₚ seq 0 n ->
  NoDup (slice p a b) /\ forall i, i ∈ slice p a b -> (i < n)%nat.
Proof.
  intros Hp. split.
  - apply (sublist_NoDup _ p); [|apply slice_sublist].
    rewrite Hp. apply NoDup_seq.
  - intros i Hi. apply (elem_of_sublist _ p) in Hi; [|apply slice_sublist].
    rewrite Hp in Hi. apply elem_of_seq in Hi. lia.
Qed.

(** X12: after every call to [shuffle_split] that completes, whatever the
    sign and size of the percentages, each of the train, validation and
    test index lists has no repeated index and holds only indices below
    the length of the dataset. *)
Theorem shuffle_split_valid_indices {L : TorchLaws}
  (train_pct val_pct test_pct : pyval) (seed : option Z) (s s' : State)
  (d : TorchData) (l : list nat) :
  _dataset (this s) = Some d ->
  shuffle_split train_pct val_pct test_pct seed s = (Return tt, s') ->
  _train_indices (this s') = Some l
  \/ _validation_indices (this s') = Some l
  \/ _test_indices (this s') = Some l ->
  NoDup l /\ forall i, i ∈ l -> (i < data_len d)%nat.
Proof.
  intros Hd Hrun Hl.
  destruct (shuffle_split_cases train_pct val_pct test_pct seed s)
    as [[e Hr]|(tr & va & te & d' & a & b & c & _ & _ & _ & Hd' & _ & _ & _ & Hr)];
    rewrite Hr in Hrun; [discriminate Hrun|].
  rewrite Hd in Hd'. injection Hd' as <-. injection Hrun as <-.
  pose proof (drawn_permutation (data_len d) seed s) as Hp.
  unfold split_state in Hl. cbn [this] in Hl.
  destruct (refreshed_fields (drawn (data_len d) seed s).1.2
              (with_indices (drawn (data_len d) seed s).1.1 a b c te (this s)))
    as (Etr & Eva & Ete & _).
  rewrite Etr, Eva, Ete in Hl. unfold with_indices in Hl.
  cbn -[slice Float64.truthy] in Hl.
  destruct Hl as [[= <-]|[[= <-]|Hl]]; try (apply slice_of_permutation, Hp).
  destruct (Float64.truthy te); [|discriminate Hl].
  injection Hl as <-. apply slice_of_permutation, Hp.
Qed.

End Split.

Lemma shuffle_split_raise_unchanged_witness :
  (shuffle_split (T := sample_torch) (VFloat Float64.nan)
     (VFloat (Float64.dec 25 100)) (VFloat Float64.zero) (Some 10) (loaded 8)).2
  = loaded 8.
Proof.
  apply (shuffle_split_raise_unchanged (T := sample_torch) (VFloat Float64.nan)
           (VFloat (Float64.dec 25 100)) (VFloat Float64.zero) (Some 10) (loaded 8)
           ValueError).
  vm_compute. reflexivity.
Defined.

Lemma shuffle_split_valid_indices_witness :
  NoDup [0; 1; 2; 3]%nat /\ forall i, i ∈ [0; 1; 2; 3]%nat -> (i < 8)%nat.
Proof.
  apply (shuffle_split_valid_indices (T := sample_torch) (L := sample_torch_laws)
           (VFloat (Float64.dec (-5) 10)) (VFloat (Float64.dec 25 100))
           (VFloat Float64.zero) None (loaded 8)
           (shuffle_split (T := sample_torch) (VFloat (Float64.dec (-5) 10))
              (VFloat (Float64.dec 25 100)) (VFloat Float64.zero) None (loaded 8)).2
           {| data_len := 8; transform := None |}).
  - reflexivity.
  - vm_compute. reflexivity.
  - left. vm_compute. reflexivity.
Defined.

(** *** The default generator *)

(** X13: with a nonzero seed, [shuffle_split] leaves torch's default
    generator as it found it; without a seed, a call that completes
    leaves it in the state in which [torch.randperm] left it. *)
Theorem shuffle_split_default_generator {T : Torch}
  (train_pct val_pct test_pct : pyval) (s : State) :
  (forall z, z <> 0 ->
     default_generator (shuffle_split train_pct val_pct test_pct (Some z) s).2
     = default_generator s)
  /\ (forall s' d,
        _dataset (this s) = Some d ->
        shuffle_split train_pct val_pct test_pct None s = (Return tt, s') ->
        default_generator s' = (randperm (data_len d) (default_generator s)).2).
Proof.
  split.
  - intros z Hz.
    destruct (shuffle_split_cases train_pct val_pct test_pct (Some z) s)
      as [[e Hr]|(tr & va & te & d & a & b & c & _ & _ & _ & _ & _ & _ & _ & Hr)];
      rewrite Hr; [reflexivity|].
    unfold split_state, drawn, seeded. cbn [snd default_generator].
    destruct (z =? 0) eqn:E; [apply Z.eqb_eq in E; contradiction|].
    destruct (randperm (data_len d) (manual_seed z)). reflexivity.
  - intros s' d Hd Hrun.
    destruct (shuffle_split_cases train_pct val_pct test_pct None s)
      as [[e Hr]|(tr & va & te & d' & a & b & c & _ & _ & _ & Hd' & _ & _ & _ & Hr)];
      rewrite Hr in Hrun; [discriminate Hrun|].
    rewrite Hd in Hd'. injection Hd' as <-. injection Hrun as <-.
    unfold split_state, drawn, seeded. cbn [snd default_generator].
    destruct (randperm (data_len d) (default_generator s)). reflexivity.
Qed.

(** *** [_make_data_loaders] *)

Lemma subset_loader_None (self : PyTorchDataset) (indices : option (list nat))
  (bs : pyval) (gen : option Gen) :
  subset_loader self indices bs gen = None <-> indices = None \/ indices = Some [].
Proof.
  unfold subset_loader. destruct indices as [[|i l]|]; simpl; split; auto;
    try discriminate; intros [H|H]; discriminate H.
Qed.

Lemma subset_loader_Some (self : PyTorchDataset) (indices : option (list nat))
  (bs : pyval) (gen : option Gen) (l : DataLoader) :
  subset_loader self indices bs gen = Some l ->
  exists idx, indices = Some idx /\ idx <> [] /\ l = loader self (Subset idx) bs gen.
Proof.
  unfold subset_loader. destruct indices as [[|i idx]|]; simpl; try discriminate.
  intros [= <-]. exists (i :: idx). split; [reflexivity|]. split; [discriminate|].
  reflexivity.
Qed.

(** The four loaders of a wrapper *)
Definition loaders (self : PyTorchDataset) : list (option DataLoader) :=
  [_data_loader self; _train_loader self; _validation_loader self;
   _test_loader self].

(** X14: a call of [_make_data_loaders] that completes has replaced all
    four loaders: the loader of the whole dataset is missing exactly when
    the dataset is undefined or empty, and the loader of a split is
    missing exactly when its index list is undefined or empty; every
    loader that is built reads its own index list, with the given batch
    size and generator and the wrapper's shuffle flag and number of
    workers. *)
Theorem make_data_loaders_spec (bs : pyval) (gen : option Gen) (s s' : State) :
  _make_data_loaders bs gen s = (Return tt, s') ->
  let self := this s in
  let self' := this s' in
  (_data_loader self' = None <->
   _dataset self = None \/ exists d, _dataset self = Some d /\ data_len d = 0%nat)
  /\ (_train_loader self' = None <->
      _train_indices self = None \/ _train_indices self = Some [])
  /\ (_validation_loader self' = None <->
      _validation_indices self = None \/ _validation_indices self = Some [])
  /\ (_test_loader self' = None <->
      _test_indices self = None \/ _test_indices self = Some [])
  /\ (forall l, _data_loader self' = Some l -> l = loader self Whole bs gen)
  /\ (forall l, _train_loader self' = Some l ->
      exists idx, _train_indices self = Some idx
                  /\ l = loader self (Subset idx) bs gen)
  /\ (forall l, _validation_loader self' = Some l ->
      exists idx, _validation_indices self = Some idx
                  /\ l = loader self (Subset idx) bs gen)
  /\ (forall l, _test_loader self' = Some l ->
      exists idx, _test_indices self = Some idx
                  /\ l = loader self (Subset idx) bs gen).
Proof.
  rewrite make_data_loaders_run. intros [= <-] self self'. subst self self'.
  cbn [fst snd this]. unfold with_loaders. cbn -[subset_loader loader].
  split.
  { destruct (_dataset (this s)) as [[[|n] t]|]; simpl.
    - split; [intros _; right; eauto | reflexivity].
    - split; [discriminate|].
      intros [H|(d & H & Hn)]; [discriminate H|].
      injection H as <-. discriminate Hn.
    - split; [intros _; left; reflexivity | reflexivity]. }
  split; [apply subset_loader_None|].
  split; [apply subset_loader_None|].
  split; [apply subset_loader_None|].
  split.
  { destruct (dataset_truthy (_dataset (this s))); [|discriminate].
    intros l [= <-]. reflexivity. }
  repeat split; intros l Hl;
    apply subset_loader_Some in Hl as (idx & Hidx & _ & ->); eauto.
Qed.

Lemma make_data_loaders_spec_witness :
  _train_loader (this (_make_data_loaders (VInt 4) None (loaded 8)).2) = None
  <-> _train_indices (this (loaded 8)) = None
      \/ _train_indices (this (loaded 8)) = Some [].
Proof.
  exact (proj1 (proj2
           (make_data_loaders_spec (VInt 4) None (loaded 8)
              (_make_data_loaders (VInt 4) None (loaded 8)).2 eq_refl))).
Defined.

(** *** [preprocess] and its interplay with [shuffle_split] *)

(** The transforms applied to every image, resized or not *)
Definition standard_transforms : list Transform := get_transform (VStr "variable").

Lemma preprocess_Return (image_size batch_size : pyval) (s s' : State) :
  preprocess image_size batch_size s = (Return tt, s') ->
  preprocess_accepts (this s) image_size batch_size = true
  /\ s' = preprocessed_state image_size batch_size s.
Proof.
  rewrite preprocess_run.
  destruct (preprocess_accepts (this s) image_size batch_size);
    [intros [= <-]; auto | discriminate].
Qed.

Lemma accepted_parts (self : PyTorchDataset) (image_size batch_size : pyval) :
  preprocess_accepts self image_size batch_size = true ->
  dataset_truthy (_dataset self) = true
  /\ dict_truthy (_preprocessed self) = false
  /\ positive_int batch_size = true
  /\ valid_image_size image_size = true.
Proof.
  unfold preprocess_accepts.
  destruct (dataset_truthy _), (dict_truthy _), (positive_int _),
    (valid_image_size _); try discriminate; auto.
Qed.

Lemma get_transform_valid (image_size : pyval) :
  valid_image_size image_size = true ->
  get_transform image_size
  = if eq_str image_size "variable" then standard_transforms
    else Resize image_size image_size :: standard_transforms.
Proof.
  unfold valid_image_size.
  destruct image_size as [ |b|z|f|x|l]; try discriminate; try reflexivity.
  simpl. rewrite orb_false_r. intros ->. reflexivity.
Qed.

(** X15: a call to [preprocess] that completes has set the transform of
    the dataset to the tensor conversion and normalization, preceded by a
    resize to image_size by image_size unless image_size is 'variable';
    it keeps the dataset's length, builds the loader of the whole dataset
    with the given batch size and no generator, and builds a loader for
    each split whose index list is non-empty, leaving the index lists and
    the default generator as they were. *)
Theorem preprocess_completed (image_size batch_size : pyval) (s s' : State) :
  preprocess image_size batch_size s = (Return tt, s') ->
  exists d,
    _dataset (this s) = Some d
    /\ data_len d <> 0%nat
    /\ _dataset (this s')
       = Some {| data_len := data_len d;
                 transform :=
                   Some (if eq_str image_size "variable" then standard_transforms
                         else Resize image_size image_size :: standard_transforms) |}
    /\ _data_loader (this s') = Some (loader (this s) Whole batch_size None)
    /\ _train_loader (this s')
       = subset_loader (this s) (_train_indices (this s)) batch_size None
    /\ _validation_loader (this s')
       = subset_loader (this s) (_validation_indices (this s)) batch_size None
    /\ _test_loader (this s')
       = subset_loader (this s) (_test_indices (this s)) batch_size None
    /\ _train_indices (this s') = _train_indices (this s)
    /\ _validation_indices (this s') = _validation_indices (this s)
    /\ _test_indices (this s') = _test_indices (this s)
    /\ default_generator s' = default_generator s.
Proof.
  intros Hrun. apply preprocess_Return in Hrun as [Hacc ->].
  apply accepted_parts in Hacc as (Hd & _ & _ & Hi).
  destruct (_dataset (this s)) as [d|] eqn:Ed; [|discriminate Hd].
  exists d. split; [reflexivity|]. split.
  { simpl in Hd. destruct (data_len d); [discriminate Hd | discriminate]. }
  unfold preprocessed_state, with_loaders, set_transform.
  cbn -[subset_loader loader get_transform standard_transforms].
  rewrite Ed. cbn -[subset_loader loader get_transform standard_transforms].
  rewrite (get_transform_valid image_size Hi).
  change (negb (Nat.eqb (data_len d) 0) = true) in Hd. rewrite Hd.
  repeat split.
Qed.

Lemma preprocess_completed_witness :
  exists d,
    _dataset (this (loaded 8)) = Some d
    /\ data_len d <> 0%nat
    /\ _dataset (this (preprocess (VInt 224) (VInt 32) (loaded 8)).2)
       = Some {| data_len := data_len d;
                 transform :=
                   Some (Resize (VInt 224) (VInt 224) :: standard_transforms) |}.
Proof.
  destruct (preprocess_completed (VInt 224) (VInt 32) (loaded 8)
              (preprocess (VInt 224) (VInt 32) (loaded 8)).2)
    as (d & H1 & H2 & H3 & _).
  - vm_compute. reflexivity.
  - exists d. auto.
Defined.

Lemma preprocessing_record_batch_size (image_size batch_size : pyval) :
  preprocessing_record image_size batch_size !! "batch_size" = Some batch_size.
Proof. reflexivity. Qed.

Lemma drawn_generator {T : Torch} (n : nat) (seed : option Z) (s : State) :
  (drawn n seed s).1.2 = None <-> seed = None \/ seed = Some 0.
Proof.
  unfold drawn, seeded. destruct seed as [z|].
  - destruct (z =? 0) eqn:E.
    + apply Z.eqb_eq in E as ->.
      destruct (randperm n (default_generator s)). simpl. split; auto.
    + apply Z.eqb_neq in E. destruct (randperm n (manual_seed z)). simpl.
      split; [discriminate|]. intros [H|[= H]]; [discriminate H | contradiction].
  - destruct (randperm n (default_generator s)). simpl. split; auto.
Qed.

Lemma refreshed_with_batch_size (gen : option Gen) (self : PyTorchDataset)
  (m : gmap string pyval) (b : pyval) :
  _preprocessed self = Some m ->
  dict_truthy (Some m) = true ->
  m !! "batch_size" = Some b ->
  refreshed gen self = with_loaders b gen self.
Proof.
  intros H1 H2 H3. unfold refreshed. rewrite H1, H2. cbn [mbind option_bind].
  rewrite H3. reflexivity.
Qed.

Lemma with_loaders_fields (bs : pyval) (gen : option Gen) (self : PyTorchDataset) :
  _data_loader (with_loaders bs gen self)
  = (if dataset_truthy (_dataset self) then Some (loader self Whole bs gen) else None)
  /\ _train_loader (with_loaders bs gen self)
     = subset_loader self (_train_indices self) bs gen
  /\ _validation_loader (with_loaders bs gen self)
     = subset_loader self (_validation_indices self) bs gen
  /\ _test_loader (with_loaders bs gen self)
     = subset_loader self (_test_indices self) bs gen
  /\ _train_indices (with_loaders bs gen self) = _train_indices self
  /\ _validation_indices (with_loaders bs gen self) = _validation_indices self
  /\ _test_indices (with_loaders bs gen self) = _test_indices self.
Proof. repeat split. Qed.

Lemma with_indices_frame (p : list nat) (a b c : Z) (te : float)
  (self : PyTorchDataset) :
  _preprocessed (with_indices p a b c te self) = _preprocessed self
  /\ _dataset (with_indices p a b c te self) = _dataset self.
Proof. split; reflexivity. Qed.

Lemma preprocessed_state_fields (image_size batch_size : pyval) (s : State) :
  _preprocessed (this (preprocessed_state image_size batch_size s))
  = Some (preprocessing_record image_size batch_size)
  /\ dataset_truthy (_dataset (this (preprocessed_state image_size batch_size s)))
     = dataset_truthy (_dataset (this s)).
Proof.
  split; [reflexivity|].
  unfold preprocessed_state, with_loaders, set_transform.
  cbn [this _dataset set_preprocessed set_test_loader set_validation_loader
         set_train_loader set_data_loader set_dataset].
  destruct (_dataset (this s)); reflexivity.
Qed.

Lemma loader_with_loaders (bs' : pyval) (gen' : option Gen) (self : PyTorchDataset)
  (src : Source) (bs : pyval) (gen : option Gen) :
  loader (with_loaders bs' gen' self) src bs gen = loader self src bs gen.
Proof. reflexivity. Qed.

Lemma subset_loader_with_loaders (bs' : pyval) (gen' : option Gen)
  (self : PyTorchDataset) (indices : option (list nat)) (bs : pyval)
  (gen : option Gen) :
  subset_loader (with_loaders bs' gen' self) indices bs gen
  = subset_loader self indices bs gen.
Proof. reflexivity. Qed.

(** X16: when [shuffle_split] completes on a dataset that [preprocess]
    has completed on, it rebuilds the loaders: the loader of the whole
    dataset and the loader of every split with a non-empty index list read
    the new index lists with the batch size given to [preprocess], and
    they share one generator, which is missing exactly when the seed is
    [None] or 0. *)
Theorem shuffle_split_after_preprocess {T : Torch} (image_size batch_size : pyval)
  (train_pct val_pct test_pct : pyval) (seed : option Z) (s s1 s2 : State) :
  preprocess image_size batch_size s = (Return tt, s1) ->
  shuffle_split train_pct val_pct test_pct seed s1 = (Return tt, s2) ->
  exists gen,
    (gen = None <-> seed = None \/ seed = Some 0)
    /\ _data_loader (this s2) = Some (loader (this s2) Whole batch_size gen)
    /\ _train_loader (this s2)
       = subset_loader (this s2) (_train_indices (this s2)) batch_size gen
    /\ _validation_loader (this s2)
       = subset_loader (this s2) (_validation_indices (this s2)) batch_size gen
    /\ _test_loader (this s2)
       = subset_loader (this s2) (_test_indices (this s2)) batch_size gen.
Proof.
  intros Hpre Hsplit. apply preprocess_Return in Hpre as [Hacc ->].
  apply accepted_parts in Hacc as (Hd & _ & _ & _).
  destruct (shuffle_split_cases train_pct val_pct test_pct seed
              (preprocessed_state image_size batch_size s))
    as [[e Hr]|(tr & va & te & d & a & b & c & _ & _ & _ & Ed & _ & _ & _ & Hr)];
    rewrite Hr in Hsplit; [discriminate Hsplit|].
  injection Hsplit as <-. clear Hr.
  destruct (preprocessed_state_fields image_size batch_size s) as (Hrec & Htr).
  rewrite Hd in Htr.
  generalize dependent (preprocessed_state image_size batch_size s).
  intros s1 Ed Hrec Htr.
  exists (drawn (data_len d) seed s1).1.2.
  split; [apply drawn_generator|].
  unfold split_state. cbn [this].
  generalize (drawn (data_len d) seed s1).1.2 as gen.
  generalize (drawn (data_len d) seed s1).1.1 as p.
  intros p gen.
  destruct (with_indices_frame p a b c te (this s1)) as (Hp & Hds).
  rewrite Hrec in Hp. rewrite <- Hds in Htr.
  generalize dependent (with_indices p a b c te (this s1)).
  intros self Htr Hp Hds.
  rewrite (refreshed_with_batch_size gen self _ batch_size Hp
             (preprocessing_record_truthy image_size batch_size)
             (preprocessing_record_batch_size image_size batch_size)).
  destruct (with_loaders_fields batch_size gen self)
    as (-> & -> & -> & -> & -> & -> & ->).
  rewrite Htr, loader_with_loaders, !subset_loader_with_loaders.
  repeat split.
Qed.

Lemma shuffle_split_after_preprocess_witness :
  exists gen,
    (gen = None <-> Some 10 = None \/ Some 10 = Some 0)
    /\ _data_loader
         (this (shuffle_split (T := sample_torch) (VFloat (Float64.dec 75 100))
                  (VFloat (Float64.dec 25 100)) (VFloat Float64.zero) (Some 10)
                  (preprocess (VStr "variable") (VInt 4) (loaded 8)).2).2)
       = Some {| source := Whole; batch_size := VInt 4; shuffle := false;
                 num_workers := 0; generator := gen |}.
Proof.
  destruct (shuffle_split_after_preprocess (T := sample_torch)
              (VStr "variable") (VInt 4) (VFloat (Float64.dec 75 100))
              (VFloat (Float64.dec 25 100)) (VFloat Float64.zero) (Some 10)
              (loaded 8) (preprocess (VStr "variable") (VInt 4) (loaded 8)).2
              (shuffle_split (T := sample_torch) (VFloat (Float64.dec 75 100))
                 (VFloat (Float64.dec 25 100)) (VFloat Float64.zero) (Some 10)
                 (preprocess (VStr "variable") (VInt 4) (loaded 8)).2).2)
    as (gen & Hgen & Hdl & _).
  - vm_compute. reflexivity.
  - vm_compute. reflexivity.
  - exists gen. split; [exact Hgen | exact Hdl].
Defined.

(** What a call to [shuffle_split], completed or not, leaves alone. *)
Lemma shuffle_split_frame {T : Torch} (train_pct val_pct test_pct : pyval)
  (seed : option Z) (s : State) :
  let self' := this (shuffle_split train_pct val_pct test_pct seed s).2 in
  _preprocessed self' = _preprocessed (this s)
  /\ _dataset self' = _dataset (this s)
  /\ _train_subset self' = _train_subset (this s)
  /\ _validation_subset self' = _validation_subset (this s)
  /\ _test_subset self' = _test_subset (this s).
Proof.
  intros self'. subst self'.
  destruct (shuffle_split_cases train_pct val_pct test_pct seed s)
    as [[e Hr]|(tr & va & te & d & a & b & c & _ & _ & _ & _ & _ & _ & _ & Hr)];
    rewrite Hr; [repeat split|].
  unfold split_state. cbn [snd this].
  destruct (refreshed_fields (drawn (data_len d) seed s).1.2
              (with_indices (drawn (data_len d) seed s).1.1 a b c te (this s)))
    as (_ & _ & _ & _ & -> & ->).
  destruct (refreshed_frame (drawn (data_len d) seed s).1.2
              (with_indices (drawn (data_len d) seed s).1.1 a b c te (this s)))
    as (-> & -> & -> & _).
  repeat split.
Qed.

(** X17: [shuffle_split] does not undo preprocessing: on a dataset that
    has a preprocessing record, [preprocess] raises [ValueError] after
    [shuffle_split] as it does before, whether the split completed or
    raised. *)
Theorem preprocess_refused_after_shuffle_split {T : Torch}
  (train_pct val_pct test_pct : pyval) (seed : option Z) (s : State)
  (image_size batch_size : pyval) :
  dict_truthy (_preprocessed (this s)) = true ->
  (preprocess image_size batch_size
     (shuffle_split train_pct val_pct test_pct seed s).2).1
  = Raise ValueError.
Proof.
  intros Hp. rewrite preprocess_run. unfold preprocess_accepts.
  destruct (shuffle_split_frame train_pct val_pct test_pct seed s) as (-> & _).
  rewrite Hp. destruct (dataset_truthy _); reflexivity.
Qed.

Lemma preprocess_refused_after_shuffle_split_witness :
  (preprocess (VInt 224) (VInt 16)
     (shuffle_split (T := sample_torch) (VFloat (Float64.dec 75 100))
        (VFloat (Float64.dec 25 100)) (VFloat Float64.zero) None
        (preprocess (VStr "variable") (VInt 4) (loaded 8)).2).2).1
  = Raise ValueError.
Proof.
  apply (preprocess_refused_after_shuffle_split (T := sample_torch)).
  apply preprocessing_record_truthy.
Defined.

(** X18: when there is no preprocessing record, or the record has no
    'batch_size' key, [shuffle_split] builds no loader: the four loaders
    are what they were before the call. *)
Theorem shuffle_split_without_batch_size {T : Torch}
  (train_pct val_pct test_pct : pyval) (seed : option Z) (s : State) :
  (forall m, _preprocessed (this s) = Some m -> m !! "batch_size" = None) ->
  loaders (this (shuffle_split train_pct val_pct test_pct seed s).2)
  = loaders (this s).
Proof.
  intros Hkey.
  destruct (shuffle_split_cases train_pct val_pct test_pct seed s)
    as [[e Hr]|(tr & va & te & d & a & b & c & _ & _ & _ & _ & _ & _ & _ & Hr)];
    rewrite Hr; [reflexivity|].
  unfold split_state. cbn [snd this]. unfold refreshed.
  replace (_preprocessed (with_indices _ a b c te (this s)))
    with (_preprocessed (this s)) by reflexivity.
  destruct (dict_truthy (_preprocessed (this s))); [|reflexivity].
  destruct (_preprocessed (this s)) as [m|]; [|reflexivity].
  cbn [mbind option_bind]. rewrite (Hkey m eq_refl). reflexivity.
Qed.

Lemma shuffle_split_without_batch_size_witness :
  loaders (this (shuffle_split (T := sample_torch) (VFloat (Float64.dec 75 100))
                   (VFloat (Float64.dec 25 100)) (VFloat Float64.zero) None
                   (loaded 8)).2)
  = loaders (this (loaded 8)).
Proof.
  apply (shuffle_split_without_batch_size (T := sample_torch)).
  intros m Hm. discriminate Hm.
Defined.

(** *** [get_batch] after the other methods *)

Lemma preprocess_frame (image_size batch_size : pyval) (s : State) :
  let self' := this (preprocess image_size batch_size s).2 in
  _train_subset self' = _train_subset (this s)
  /\ _validation_subset self' = _validation_subset (this s)
  /\ _test_subset self' = _test_subset (this s).
Proof.
  intros self'. subst self'. rewrite preprocess_run.
  destruct (preprocess_accepts (this s) image_size batch_size); repeat split.
Qed.

Lemma get_batch_undefined {T : Torch} (s : State) :
  (_train_subset (this s) = None ->
   get_batch (VStr "train") s = (Raise ValueError, s))
  /\ (_validation_subset (this s) = None ->
      get_batch (VStr "validation") s = (Raise ValueError, s))
  /\ (_test_subset (this s) = None ->
      get_batch (VStr "test") s = (Raise ValueError, s)).
Proof.
  repeat split; intros H; unfold get_batch, bind, gets; cbn -[next_iter];
    rewrite H; reflexivity.
Qed.

(** X19: neither [preprocess] nor [shuffle_split] defines the subsets that
    [get_batch] tests: if the train subset attribute is undefined, then
    after [preprocess] followed by [shuffle_split], completed or not,
    [get_batch('train')] still raises [ValueError], and likewise for
    'validation' and 'test'. *)
Theorem get_batch_after_preprocess_and_split {T : Torch}
  (image_size batch_size train_pct val_pct test_pct : pyval) (seed : option Z)
  (s : State) :
  let s' := (shuffle_split train_pct val_pct test_pct seed
               (preprocess image_size batch_size s).2).2 in
  (_train_subset (this s) = None ->
   get_batch (VStr "train") s' = (Raise ValueError, s'))
  /\ (_validation_subset (this s) = None ->
      get_batch (VStr "validation") s' = (Raise ValueError, s'))
  /\ (_test_subset (this s) = None ->
      get_batch (VStr "test") s' = (Raise ValueError, s')).
Proof.
  intros s'. subst s'.
  destruct (shuffle_split_frame train_pct val_pct test_pct seed
              (preprocess image_size batch_size s).2) as (_ & _ & E1 & E2 & E3).
  destruct (preprocess_frame image_size batch_size s) as (F1 & F2 & F3).
  rewrite F1 in E1. rewrite F2 in E2. rewrite F3 in E3.
  repeat split; intros H; apply get_batch_undefined; congruence.
Qed.

End TorchDatasetExtra.
